(** * The table loader of the ETL pipeline (src/etl.py)

    A shallow embedding of [read_csv_safe], [parse_dates], [convert_value],
    [log_bad_row], [log_event], [load_table] and [main], followed by the
    properties of the load that the specification states and by further
    properties of the code.

    What the program gets from outside is kept outside the definitions:
    - the file system and the CSV parser ([pd.read_csv]) and the date parser
      ([pd.to_datetime]) are variables of the section [Pipeline];
    - the database behind the psycopg2 connection is the small store of the
      module [Db]: tables of rows, row-level constraints, one pending
      transaction. *)

From Stdlib Require Import ZArith Ascii String DecimalString Bool Lia.
From stdpp Require Import gmap strings list fin_maps.

(** ** Python values *)

(** [datetime.date]. *)
Record date := Date { year : nat; month : nat; day : nat }.

(** [pd.Timestamp], [np.datetime64]: a calendar date and the time of day,
    the latter carried by its text ([00:00:00]). *)
Record timestamp := Timestamp { ts_date : date; ts_clock : string }.

(** A float is carried by what [repr] prints of it; the program never
    computes with one, it only tests for NaN and prints. *)
Inductive pyfloat :=
| FNaN
| FNum (repr : string).

(** The objects a cell of a [DataFrame] can hold, told apart by the classes
    the program tests with [isinstance] and [pd.isnull]. *)
Inductive pyobj :=
| PyNone
| NaT
| PyFloat (f : pyfloat)                   (* float *)
| NpFloat (double : bool) (f : pyfloat)   (* np.floating; np.float64 is also a float *)
| PyInt (z : Z)                           (* int *)
| NpInt (z : Z)                           (* np.integer *)
| PyBool (b : bool)                       (* bool, a subclass of int *)
| NpBool (b : bool)                       (* np.bool_ *)
| PdTimestamp (t : timestamp)             (* pd.Timestamp *)
| NpDatetime64 (t : timestamp)            (* np.datetime64 *)
| PyDate (d : date)                       (* datetime.date *)
| PyStr (s : string).

(** What [convert_value] hands to the database driver. *)
Inductive value :=
| VNone
| VDate (d : date)
| VInt (z : Z)
| VFloat (f : pyfloat)
| VBool (b : bool)
| VStr (s : string).

Inductive kind := KNull | KDate | KInt | KFloat | KBool | KStr.


Global Instance date_eq_dec : EqDecision date.
Proof. solve_decision. Defined.
Global Instance timestamp_eq_dec : EqDecision timestamp.
Proof. solve_decision. Defined.
Global Instance pyfloat_eq_dec : EqDecision pyfloat.
Proof. solve_decision. Defined.
Global Instance pyobj_eq_dec : EqDecision pyobj.
Proof. solve_decision. Defined.
Global Instance value_eq_dec : EqDecision value.
Proof. solve_decision. Defined.
Global Instance kind_eq_dec : EqDecision kind.
Proof. solve_decision. Defined.

(** ** Exceptions *)

(** Errors of the database (module [Db]). *)
Inductive db_error :=
| UndefinedTable (t : string)
| SyntaxError
| NotNullViolation (col : string)
| CheckViolation
| CardinalityViolation.

(** The exceptions raised in the program.  The text of an exception,
    [str(e)], is carried by the exception itself. *)
Inductive exn :=
| UnicodeDecodeError
| ReadError (msg : string)          (* anything else [pd.read_csv] raises *)
| NoEncoding                        (* the [Exception] of [read_csv_safe] *)
| MissingColumns (table : string) (cols : list string)
| AttributeError (attr : string)
| DatabaseError (e : db_error).

Inductive result (A : Type) :=
| Ok (a : A)
| Raise (e : exn).
Arguments Ok {A} a.
Arguments Raise {A} e.

Global Instance db_error_eq_dec : EqDecision db_error.
Proof. solve_decision. Defined.
Global Instance exn_eq_dec : EqDecision exn.
Proof. solve_decision. Defined.

Definition is_unicode_decode_error (e : exn) : bool :=
  match e with UnicodeDecodeError => true | _ => false end.

(** [[f(x) for x in l]] where [f] may raise: the first exception wins. *)
Fixpoint map_result {A B} (f : A -> result B) (l : list A) : result (list B) :=
  match l with
  | [] => Ok []
  | x :: l' =>
      match f x with
      | Raise e => Raise e
      | Ok y =>
          match map_result f l' with
          | Raise e => Raise e
          | Ok ys => Ok (y :: ys)
          end
      end
  end.

(** ** Strings *)

(** Strings are sequences of 8-bit characters; the case and class of a
    character are those of its ASCII range. *)
Module Str.

Definition code (a : ascii) : nat := nat_of_ascii a.

Definition is_upper (a : ascii) : bool := (65 <=? code a) && (code a <=? 90).
Definition is_lower (a : ascii) : bool := (97 <=? code a) && (code a <=? 122).
Definition isalpha (a : ascii) : bool := is_upper a || is_lower a.

(** The characters [str.strip] removes. *)
Definition isspace (a : ascii) : bool :=
  (code a =? 32) || ((9 <=? code a) && (code a <=? 13))
  || ((28 <=? code a) && (code a <=? 31)).

Definition lower_char (a : ascii) : ascii :=
  if is_upper a then ascii_of_nat (code a + 32) else a.
Definition upper_char (a : ascii) : ascii :=
  if is_lower a then ascii_of_nat (code a - 32) else a.

Fixpoint map (f : ascii -> ascii) (s : string) : string :=
  match s with
  | EmptyString => EmptyString
  | String a s' => String (f a) (map f s')
  end.

Fixpoint filter (p : ascii -> bool) (s : string) : string :=
  match s with
  | EmptyString => EmptyString
  | String a s' => if p a then String a (filter p s') else filter p s'
  end.

Definition lower : string -> string := map lower_char.
Definition upper : string -> string := map upper_char.

Fixpoint lstrip (s : string) : string :=
  match s with
  | EmptyString => EmptyString
  | String a s' => if isspace a then lstrip s' else s
  end.
Definition rstrip (s : string) : string := String.rev (lstrip (String.rev s)).
Definition strip (s : string) : string := rstrip (lstrip s).

(** [sub in s]. *)
Fixpoint contains (sub s : string) : bool :=
  String.prefix sub s
  || match s with
     | EmptyString => false
     | String _ s' => contains sub s'
     end.

(** [sep.join(l)]. *)
Fixpoint join (sep : string) (l : list string) : string :=
  match l with
  | [] => ""
  | [x] => x
  | x :: l' => x +:+ sep +:+ join sep l'
  end.

Definition of_nat (n : nat) : string := NilZero.string_of_uint (Nat.to_uint n).
Definition of_Z (z : Z) : string := NilZero.string_of_int (Z.to_int z).

(** [%0wd], the zero padding of an ISO date. *)
Fixpoint zeros (k : nat) : string :=
  match k with
  | 0 => ""
  | S k' => String "0" (zeros k')
  end.
Definition pad (w : nat) (s : string) : string :=
  zeros (w - String.length s) +:+ s.

End Str.

(** ** Cells and their coercion *)

(** [pd.isnull(v)] on a scalar. *)
Definition isnull (v : pyobj) : bool :=
  match v with
  | PyNone | NaT | PyFloat FNaN | NpFloat _ FNaN => true
  | _ => false
  end.

Definition notnull (v : pyobj) : bool := negb (isnull v).

Definition str_float (f : pyfloat) : string :=
  match f with
  | FNaN => "nan"
  | FNum repr => repr
  end.

(** [str(d)] of a [datetime.date]: [YYYY-MM-DD]. *)
Definition isoformat (d : date) : string :=
  Str.pad 4 (Str.of_nat (year d)) +:+ "-" +:+ Str.pad 2 (Str.of_nat (month d))
  +:+ "-" +:+ Str.pad 2 (Str.of_nat (day d)).

(** [str(v)]. *)
Definition py_str (v : pyobj) : string :=
  match v with
  | PyNone => "None"
  | NaT => "NaT"
  | PyFloat f | NpFloat _ f => str_float f
  | PyInt z | NpInt z => Str.of_Z z
  | PyBool b | NpBool b => if b then "True" else "False"
  | PdTimestamp t => isoformat (ts_date t) +:+ " " +:+ ts_clock t
  | NpDatetime64 t => isoformat (ts_date t) +:+ "T" +:+ ts_clock t
  | PyDate d => isoformat d
  | PyStr s => s
  end.

(** [convert_value], etl.py lines 49-61.  The branches are tried in the order
    of the source; [np.datetime64] has no method [date], so that the call
    [v.date()] of the second branch raises for it. *)
Definition convert_value (v : pyobj) : result value :=
  if isnull v then Ok VNone
  else match v with
       | PdTimestamp t => Ok (VDate (ts_date t))
       | NpDatetime64 _ => Raise (AttributeError "date")
       | NpInt z => Ok (VInt z)
       | NpFloat _ f => Ok (VFloat f)
       | NpBool b => Ok (VBool b)
       | _ => Ok (VStr (Str.strip (py_str v)))
       end.

(** The classes of the [isinstance] tests of [convert_value]. *)
Definition is_datetime (v : pyobj) : bool :=
  match v with PdTimestamp _ | NpDatetime64 _ => true | _ => false end.

(** [isinstance(v, (int, float))]: [bool] is an [int], [np.float64] is a
    [float], and no other numpy scalar is either. *)
Definition is_int_or_float (v : pyobj) : bool :=
  match v with
  | PyInt _ | PyBool _ | PyFloat _ | NpFloat true _ => true
  | _ => false
  end.

(** ** Data frames *)

(** A frame is its column labels and its rows, each row with its index
    label; the cells of a row are aligned with the columns by position.
    The labels of the columns are taken to be distinct, as [pd.read_csv]
    makes them. *)
Record DataFrame := Frame {
  columns : list string;
  rows : list (nat * list pyobj)
}.

Definition cell_at (j : nat) (r : nat * list pyobj) : pyobj :=
  default PyNone (r.2 !! j).

(** The position of a column label. *)
Fixpoint position (name : string) (cols : list string) : option nat :=
  match cols with
  | [] => None
  | c :: cols' => if decide (c = name) then Some 0 else S <$> position name cols'
  end.

(** [row.get(name)]: [None] when there is no such column. *)
Definition row_get (cols : list string) (r : nat * list pyobj) (name : string) : pyobj :=
  match position name cols with
  | Some j => cell_at j r
  | None => PyNone
  end.

(** [df[col]] by position. *)
Definition column (j : nat) (df : DataFrame) : list pyobj :=
  cell_at j <$> rows df.

(** [df[col] = vals] by position. *)
Definition set_column (j : nat) (vals : list pyobj) (df : DataFrame) : DataFrame :=
  Frame (columns df)
        (imap (fun i r => (r.1, <[j := default PyNone (vals !! i)]> (r.2))) (rows df)).

(** [df.at[idx, col] = v]. *)
Definition set_at (idx j : nat) (v : pyobj) (df : DataFrame) : DataFrame :=
  Frame (columns df)
        ((fun r => if decide (r.1 = idx) then (r.1, <[j := v]> (r.2)) else r) <$> rows df).

(** [df.drop(index=labels)]. *)
Definition drop (labels : list nat) (df : DataFrame) : DataFrame :=
  Frame (columns df) (filter (fun r => r.1 ∉ labels) (rows df)).

(** ["date" in col.lower()]. *)
Definition is_date_col (col : string) : bool := Str.contains "date" (Str.lower col).

(** The positions of the columns that [is_date_col] designates, counted
    from [j]. *)
Fixpoint date_positions_from (j : nat) (cols : list string) : list nat :=
  match cols with
  | [] => []
  | c :: cols' =>
      if is_date_col c then j :: date_positions_from (S j) cols'
      else date_positions_from (S j) cols'
  end.

Definition date_positions (df : DataFrame) : list nat :=
  date_positions_from 0 (columns df).

(** ** The database *)

(** The store behind the connection.  A table is its rows and its row-level
    constraints; a row maps column names to values, an absent column being
    NULL.  Statements are atomic: one that fails leaves the pending state as
    it was and the connection usable, which is what the row-by-row fallback
    of the loader relies on. *)
Module Db.

Inductive status := SUCCESS | FAILURE.

(** A row of [LOGS.etl_log]; the message is empty or the text of an
    exception. *)
Record log_entry := LogEntry {
  le_table : string;
  le_start : nat;
  le_end : nat;
  le_row_count : nat;
  le_status : status;
  le_message : option exn
}.

Record table := Table {
  t_accepts : gmap string value -> bool;
  t_rows : list (gmap string value)
}.

(** [etl_log = None]: the log table cannot be written. *)
Record store := Store {
  tables : gmap string table;
  etl_log : option (list log_entry)
}.

(** [INSERT INTO q_table (q_columns) VALUES ...], with
    [ON CONFLICT (pk) DO UPDATE SET c=EXCLUDED.c] for [c] in [set] when
    [q_conflict = Some (pk, set)]. *)
Record query := Query {
  q_table : string;
  q_columns : list string;
  q_conflict : option (list string * list string)
}.

Inductive statement :=
| DeleteFrom (t : string)
| InsertValues (q : query) (values : list (list value))  (* execute_values *)
| InsertRow (q : query) (row : list value)               (* cur.execute *)
| InsertLog (e : log_entry).

Definition cell (r : gmap string value) (c : string) : value :=
  default VNone (r !! c).

Definition key (pk : list string) (r : gmap string value) : list value :=
  cell r <$> pk.

(** The row that a tuple of values makes under the columns of the query. *)
Definition incoming (q : query) (vals : list value) : gmap string value :=
  list_to_map (zip (q_columns q) vals).

(** [DO UPDATE SET c = EXCLUDED.c, ...]. *)
Definition excluded_update (set : list string) (new old : gmap string value)
  : gmap string value :=
  foldr (fun c r => <[c := cell new c]> r) old set.

(** An [ON CONFLICT] clause needs a key and something to set. *)
Definition well_formed (q : query) : bool :=
  match q_conflict q with
  | Some ([], _) | Some (_, []) => false
  | _ => true
  end.

(** Why the table refuses a row, if it does: the statement does not parse,
    a key column is NULL, or a constraint of the table is violated. *)
Definition refusal (q : query) (t : table) (new : gmap string value)
  : option db_error :=
  if negb (well_formed q) then Some SyntaxError
  else match q_conflict q with
       | Some (pk, _) =>
           match filter (fun k => cell new k = VNone) pk with
           | k :: _ => Some (NotNullViolation k)
           | [] => if t_accepts t new then None else Some CheckViolation
           end
       | None => if t_accepts t new then None else Some CheckViolation
       end.

Definition has_key (pk : list string) (k : list value)
    (rs : list (gmap string value)) : bool :=
  bool_decide (Exists (fun r => key pk r = k) rs).

(** The rows after an accepted row is inserted or, on a conflict, merged. *)
Definition put_row (q : query) (new : gmap string value)
    (rs : list (gmap string value)) : list (gmap string value) :=
  match q_conflict q with
  | Some (pk, set) =>
      if has_key pk (key pk new) rs
      then (fun r => if decide (key pk r = key pk new)
                     then excluded_update set new r else r) <$> rs
      else rs ++ [new]
  | None => rs ++ [new]
  end.

Definition insert_row (q : query) (vals : list value) (t : table)
  : db_error + table :=
  match refusal q t (incoming q vals) with
  | Some e => inl e
  | None => inr (Table (t_accepts t) (put_row q (incoming q vals) (t_rows t)))
  end.

Fixpoint insert_rows (q : query) (values : list (list value)) (t : table)
  : db_error + table :=
  match values with
  | [] => inr t
  | vals :: values' =>
      match insert_row q vals t with
      | inl e => inl e
      | inr t' => insert_rows q values' t'
      end
  end.

(** A multi-row upsert may not touch one row twice. *)
Definition batch_keys_distinct (q : query) (values : list (list value)) : bool :=
  match q_conflict q with
  | Some (pk, _) => bool_decide (NoDup ((fun vals => key pk (incoming q vals)) <$> values))
  | None => true
  end.

Definition insert_values (q : query) (values : list (list value)) (t : table)
  : db_error + table :=
  match insert_rows q values t with
  | inl e => inl e
  | inr t' => if batch_keys_distinct q values then inr t'
              else inl CardinalityViolation
  end.

Definition on_table (name : string) (f : table -> db_error + table) (st : store)
  : db_error + store :=
  match tables st !! name with
  | None => inl (UndefinedTable name)
  | Some t =>
      match f t with
      | inl e => inl e
      | inr t' => inr (Store (<[name := t']> (tables st)) (etl_log st))
      end
  end.

Definition run (s : statement) (st : store) : db_error + store :=
  match s with
  | DeleteFrom name => on_table name (fun t => inr (Table (t_accepts t) [])) st
  | InsertValues q values => on_table (q_table q) (insert_values q values) st
  | InsertRow q vals => on_table (q_table q) (insert_row q vals) st
  | InsertLog e =>
      match etl_log st with
      | None => inl (UndefinedTable "LOGS.etl_log")
      | Some l => inr (Store (tables st) (Some (l ++ [e])))
      end
  end.

Global Arguments run : simpl never.

(** *** The connection *)

Inductive call :=
| Execute (s : statement)
| Commit
| Rollback.

(** The committed state, the state within the open transaction, and what
    was sent over the connection so far. *)
Record connection := Connection {
  committed : store;
  pending : store;
  calls : list call
}.

Definition execute (s : statement) (c : connection) : connection * option db_error :=
  match run s (pending c) with
  | inl e => (Connection (committed c) (pending c) (calls c ++ [Execute s]), Some e)
  | inr st => (Connection (committed c) st (calls c ++ [Execute s]), None)
  end.

Definition commit (c : connection) : connection :=
  Connection (pending c) (pending c) (calls c ++ [Commit]).

Definition rollback (c : connection) : connection :=
  Connection (committed c) (committed c) (calls c ++ [Rollback]).

(** The rows of a table in a store; none when there is no such table. *)
Definition rows_of (name : string) (st : store) : list (gmap string value) :=
  match tables st !! name with
  | Some t => t_rows t
  | None => []
  end.

End Db.

(** ** What a load leaves behind *)

(** The reasons [load_table] gives for rejecting a row of the currency
    table. *)
Inductive reason :=
| BadCurrencyCode (code : pyobj)
| IsoNone
| BadIso (iso : pyobj) (iso_str : string) (len : nat).

(** An entry of [logs/bad_rows.log]: the table, the line of the file
    ([index + 2]), the row as a dictionary and the reasons. *)
Record bad_row := BadRow {
  br_table : string;
  br_line : nat;
  br_row : list (string * pyobj);
  br_reasons : list reason
}.

(** The lines the program prints. *)
Inductive output :=
| PrintStart (table : string) (start : nat)
| PrintDropped (n : nat)
| PrintBulkError (table : string) (e : exn)
| PrintFallback
| PrintRowError (line : nat) (row : list value) (e : exn)
| PrintFailedRows (n : nat)
| PrintLoadError (table : string) (e : exn)
| PrintLogError (e : exn).

Record world := World {
  conn : Db.connection;
  bad_rows_log : list bad_row;
  stdout : list output;
  clock : nat
}.

(** Computations that change the world and may raise. *)
Definition M (A : Type) : Type := world -> world * result A.

Definition ret {A} (a : A) : M A := fun w => (w, Ok a).

Definition bind {A B} (m : M A) (k : A -> M B) : M B :=
  fun w => match m w with
           | (w', Ok a) => k a w'
           | (w', Raise e) => (w', Raise e)
           end.

Definition lift {A} (r : result A) : M A := fun w => (w, r).

(** [try: m except Exception as e: h e]. *)
Definition try_except {A} (m : M A) (h : exn -> M A) : M A :=
  fun w => match m w with
           | (w', Ok a) => (w', Ok a)
           | (w', Raise e) => h e w'
           end.

Notation "x <- m ;; k" := (bind m (fun x => k))
  (at level 100, m at next level, right associativity).
Notation "m ;; k" := (bind m (fun _ => k))
  (at level 100, right associativity).

Definition print (o : output) : M unit :=
  fun w => (World (conn w) (bad_rows_log w) (stdout w ++ [o]) (clock w), Ok tt).

(** [time.sleep(n)]. *)
Definition sleep (n : nat) : M unit :=
  fun w => (World (conn w) (bad_rows_log w) (stdout w) (clock w + n), Ok tt).

(** [datetime.now()]. *)
Definition now : M nat := fun w => (w, Ok (clock w)).

(** [cur.execute]. *)
Definition cur_execute (s : Db.statement) : M unit :=
  fun w => match Db.execute s (conn w) with
           | (c, None) => (World c (bad_rows_log w) (stdout w) (clock w), Ok tt)
           | (c, Some e) =>
               (World c (bad_rows_log w) (stdout w) (clock w), Raise (DatabaseError e))
           end.

(** [execute_values], taken as one statement for the whole list; nothing is
    sent for an empty list. *)
Definition execute_values (q : Db.query) (values : list (list value)) : M unit :=
  match values with
  | [] => ret tt
  | _ => cur_execute (Db.InsertValues q values)
  end.

Definition conn_commit : M unit :=
  fun w => (World (Db.commit (conn w)) (bad_rows_log w) (stdout w) (clock w), Ok tt).

Definition conn_rollback : M unit :=
  fun w => (World (Db.rollback (conn w)) (bad_rows_log w) (stdout w) (clock w), Ok tt).

(** [log_bad_row], etl.py lines 64-66. *)
Definition log_bad_row (table_name : string) (index : nat)
    (row_dict : list (string * pyobj)) (reasons : list reason) : M unit :=
  fun w => (World (conn w)
                  (bad_rows_log w ++ [BadRow table_name (index + 2) row_dict reasons])
                  (stdout w) (clock w), Ok tt).

(** [log_event], etl.py lines 16-25: best effort, nothing escapes. *)
Definition log_event (table : string) (start_time end_time row_count : nat)
    (status : Db.status) (message : option exn) : M unit :=
  try_except
    (cur_execute
       (Db.InsertLog (Db.LogEntry table start_time end_time row_count status message));;
     conn_commit)
    (fun e => print (PrintLogError e)).

(** ** The pipeline *)

Section Pipeline.

(** [pd.read_csv(csv_path, encoding=enc, sep=';', engine='python')]: the
    file system and the parser. *)
Variable pd_read_csv : string -> string -> result DataFrame.

(** [pd.to_datetime(column, errors='coerce', dayfirst=True)]: one entry per
    cell, [None] for [NaT]. *)
Variable pd_to_datetime : list pyobj -> result (list (option timestamp)).

(** *** The reader, etl.py lines 39-46 *)

Definition encodings : list string := ["utf-8"; "cp1251"; "ISO-8859-1"].

(** The loop over the encodings, with the encodings it tried. *)
Fixpoint read_attempts (csv_path : string) (encs : list string)
  : list string * result DataFrame :=
  match encs with
  | [] => ([], Raise NoEncoding)
  | enc :: encs' =>
      match pd_read_csv csv_path enc with
      | Ok df => ([enc], Ok df)
      | Raise e =>
          if is_unicode_decode_error e
          then (enc :: (read_attempts csv_path encs').1,
                (read_attempts csv_path encs').2)
          else ([enc], Raise e)
      end
  end.

Definition read_csv_safe (csv_path : string) : result DataFrame :=
  (read_attempts csv_path encodings).2.

(** *** The normaliser, etl.py lines 28-36 and 75-78 *)

Definition lower_columns (df : DataFrame) : DataFrame :=
  Frame (Str.lower <$> columns df) (rows df).

(** [x.date() if pd.notnull(x) else None]. *)
Definition to_date (x : option timestamp) : pyobj :=
  match x with
  | Some t => PyDate (ts_date t)
  | None => PyNone
  end.

(** The body of the loop of [parse_dates] for the column at [j]. *)
Definition parse_date_column (df : DataFrame) (j : nat) : DataFrame :=
  match pd_to_datetime (column j df) with
  | Ok parsed => set_column j (to_date <$> parsed) df
  | Raise _ => df
  end.

Definition parse_dates (df : DataFrame) : DataFrame :=
  foldl parse_date_column df (date_positions df).

(** [df.dropna(subset=[col for col in df.columns if 'date' in col.lower()])]. *)
Definition has_dates (df : DataFrame) (r : nat * list pyobj) : bool :=
  forallb (fun j => notnull (cell_at j r)) (date_positions df).

Definition dropna_dates (df : DataFrame) : DataFrame :=
  Frame (columns df) (filter (has_dates df) (rows df)).

(** [df.where(pd.notnull(df), None)]. *)
Definition where_notnull (df : DataFrame) : DataFrame :=
  Frame (columns df)
        ((fun r : nat * list pyobj =>
            (r.1, (fun v => if notnull v then v else PyNone) <$> r.2))
           <$> rows df).

Definition normalize (df : DataFrame) : DataFrame :=
  where_notnull (dropna_dates (parse_dates (lower_columns df))).

(** *** The exchange-rate table, etl.py lines 80-84 *)

Definition subset_key (cols subset : list string) (r : nat * list pyobj)
  : list pyobj :=
  row_get cols r <$> subset.

(** [df.drop_duplicates(subset=...)]: the first row of each key stays. *)
Fixpoint keep_first (cols subset : list string) (seen : list (list pyobj))
    (rs : list (nat * list pyobj)) : list (nat * list pyobj) :=
  match rs with
  | [] => []
  | r :: rs' =>
      if bool_decide (subset_key cols subset r ∈ seen)
      then keep_first cols subset seen rs'
      else r :: keep_first cols subset (subset_key cols subset r :: seen) rs'
  end.

Definition drop_duplicates (subset : list string) (df : DataFrame) : DataFrame :=
  Frame (columns df) (keep_first (columns df) subset [] (rows df)).

Definition exchange_rate_key : list string := ["data_actual_date"; "currency_rk"].

Definition exchange_rate_rule (table_name : string) (df : DataFrame)
  : result DataFrame :=
  if forallb (fun c => bool_decide (c ∈ columns df)) exchange_rate_key
  then Ok (drop_duplicates exchange_rate_key df)
  else Raise (MissingColumns table_name (columns df)).

(** *** The currency table, etl.py lines 86-110 *)

(** [''.join(filter(str.isalpha, str(iso))).upper()]. *)
Definition iso_letters (iso : pyobj) : string :=
  Str.upper (Str.filter Str.isalpha (py_str iso)).

Definition code_reasons (code : pyobj) : list reason :=
  if isnull code || negb (is_int_or_float code) then [BadCurrencyCode code] else [].

Definition iso_reasons (iso : pyobj) : list reason :=
  if isnull iso then [IsoNone]
  else if String.length (iso_letters iso) =? 3 then []
       else [BadIso iso (iso_letters iso) (String.length (iso_letters iso))].

Definition currency_reasons (cols : list string) (r : nat * list pyobj)
  : list reason :=
  code_reasons (row_get cols r "currency_code")
  ++ iso_reasons (row_get cols r "code_iso_char").

(** [df.at[idx, 'code_iso_char'] = iso_str], done for a code of three
    letters. *)
Definition fix_iso (r : nat * list pyobj) (df : DataFrame) : DataFrame :=
  let iso := row_get (columns df) r "code_iso_char" in
  match position "code_iso_char" (columns df) with
  | Some j =>
      if notnull iso && (String.length (iso_letters iso) =? 3)
      then set_at r.1 j (PyStr (iso_letters iso)) df
      else df
  | None => df
  end.

(** The loop over [df.iterrows()]: the rows are those of the frame as it
    was when the loop began. *)
Fixpoint currency_loop (table_name : string) (rs : list (nat * list pyobj))
    (df : DataFrame) (bad_rows : list nat) : M (DataFrame * list nat) :=
  match rs with
  | [] => ret (df, bad_rows)
  | r :: rs' =>
      let reasons := currency_reasons (columns df) r in
      let df' := fix_iso r df in
      match reasons with
      | [] => currency_loop table_name rs' df' bad_rows
      | _ =>
          log_bad_row table_name r.1 (zip (columns df) r.2) reasons;;
          currency_loop table_name rs' df' (bad_rows ++ [r.1])
      end
  end.

Definition currency_rule (table_name : string) (df : DataFrame) : M DataFrame :=
  res <- currency_loop table_name (rows df) df [];;
  print (PrintDropped (length res.2));;
  ret (drop res.2 res.1).

(** Lines 74-110: the frame that goes to the database. *)
Definition prepare (table_name csv_path : string) : M DataFrame :=
  df <- lift (read_csv_safe csv_path);;
  let df := normalize df in
  df <- (if decide (table_name = "ds.md_exchange_rate_d")
         then lift (exchange_rate_rule table_name df)
         else ret df);;
  if decide (table_name = "ds.md_currency_d")
  then currency_rule table_name df
  else ret df.

(** *** The statement, etl.py lines 119-138 *)

(** [upsert_query(pk_cols)]: on a conflict every column outside the key is
    set to the incoming value. *)
Definition upsert_query (table_name : string) (columns pk_cols : list string)
  : Db.query :=
  Db.Query table_name columns
           (Some (pk_cols, filter (fun col => col ∉ pk_cols) columns)).

Definition plain_query (table_name : string) (columns : list string) : Db.query :=
  Db.Query table_name columns None.

(** The key columns the program declares for a table. *)
Definition primary_key (table_name : string) : option (list string) :=
  if decide (table_name = "ds.ft_balance_f") then Some ["on_date"; "account_rk"]
  else if decide (table_name = "ds.md_account_d")
       then Some ["data_actual_date"; "account_rk"]
  else if decide (table_name = "ds.md_currency_d")
       then Some ["currency_rk"; "data_actual_date"]
  else if decide (table_name = "ds.md_exchange_rate_d")
       then Some ["data_actual_date"; "currency_rk"]
  else if decide (table_name = "ds.md_ledger_account_s")
       then Some ["ledger_account"; "start_date"]
  else None.

Definition build_query (table_name : string) (columns : list string) : Db.query :=
  match primary_key table_name with
  | Some pk_cols => upsert_query table_name columns pk_cols
  | None => plain_query table_name columns
  end.

(** The text of a statement, up to white space. *)
Definition query_text (q : Db.query) : string :=
  "INSERT INTO " +:+ Db.q_table q +:+ " (" +:+ Str.join ", " (Db.q_columns q)
  +:+ ") VALUES %s"
  +:+ match Db.q_conflict q with
      | Some (pk_cols, set) =>
          " ON CONFLICT (" +:+ Str.join ", " pk_cols +:+ ") DO UPDATE SET "
          +:+ Str.join ", " ((fun col => col +:+ "=EXCLUDED." +:+ col) <$> set)
      | None => ""
      end.

(** *** The loader, etl.py lines 112-153 *)

(** [df.to_numpy()]. *)
Definition to_numpy (df : DataFrame) : list (list pyobj) := (rows df).*2.

(** The loop of the fallback over [enumerate(values)], from row [i] on. *)
Fixpoint row_fallback (table_name : string) (query : Db.query) (i : nat)
    (values : list (list value)) (failed_rows : nat) : M nat :=
  match values with
  | [] => ret failed_rows
  | row :: values' =>
      failed_rows' <-
        try_except
          (cur_execute (Db.InsertRow query row);; ret failed_rows)
          (fun row_error =>
             print (PrintRowError (i + 1) row row_error);;
             ret (failed_rows + 1));;
      row_fallback table_name query (S i) values' failed_rows'
  end.

(** Lines 140-153: the bulk insert and, when it raises, the rows one by
    one. *)
Definition load_values (table_name : string) (query : Db.query)
    (values : list (list value)) : M unit :=
  try_except
    (execute_values query values)
    (fun bulk_error =>
       print (PrintBulkError table_name bulk_error);;
       print PrintFallback;;
       failed_rows <- row_fallback table_name query 0 values 0;;
       print (PrintFailedRows failed_rows)).

Definition insert (table_name : string) (df : DataFrame) : M unit :=
  (if decide (table_name = "ds.ft_posting_f")
   then cur_execute (Db.DeleteFrom "ds.ft_posting_f")
   else ret tt);;
  let columns := columns df in
  values <- lift (map_result (map_result convert_value) (to_numpy df));;
  let query := build_query table_name columns in
  load_values table_name query values.

(** *** [load_table], etl.py lines 69-164 *)

(** The parameter [if_exists] of the source is never read and is left out;
    the connection is the one of the world. *)

Definition load_table (table_name csv_path : string) : M unit :=
  start <- now;;
  print (PrintStart table_name start);;
  sleep 5;;
  try_except
    (df <- prepare table_name csv_path;;
     insert table_name df;;
     conn_commit;;
     sleep 2;;
     end_ <- now;;
     log_event table_name start end_ (length (rows df)) Db.SUCCESS None)
    (fun e =>
       conn_rollback;;
       end_ <- now;;
       log_event table_name start end_ 0 Db.FAILURE (Some e);;
       print (PrintLoadError table_name e)).

(** The world after a load. *)
Definition after_load (table_name csv_path : string) (w : world) : world :=
  (load_table table_name csv_path w).1.

End Pipeline.

(** ** Examples *)

(** Small inputs on which the definitions above are run. *)
Module Example.

Definition midnight (y m d : nat) : timestamp := Timestamp (Date y m d) "00:00:00".

(** A file that decodes under [cp1251] only. *)
Definition cyrillic_frame : DataFrame :=
  Frame ["ID"; "NAME"] [(0, [PyInt 1; PyStr "a"]); (1, [PyInt 2; PyStr "b"])].

Definition cyrillic_file (csv_path enc : string) : result DataFrame :=
  if decide (enc = "utf-8") then Raise UnicodeDecodeError
  else if decide (enc = "cp1251") then Ok cyrillic_frame
  else Ok (Frame [] []).

(** A file that decodes under [utf-8] and does not parse. *)
Definition malformed_file (csv_path enc : string) : result DataFrame :=
  if decide (enc = "utf-8") then Raise (ReadError "Expected 2 fields, saw 3")
  else Ok cyrillic_frame.

(** A date parser that knows two dates. *)
Definition parse_cell (v : pyobj) : option timestamp :=
  match v with
  | PyStr s =>
      if decide (s = "01.01.2018") then Some (midnight 2018 1 1)
      else if decide (s = "15.01.2018") then Some (midnight 2018 1 15)
      else None
  | _ => None
  end.

Definition to_datetime (col : list pyobj) : result (list (option timestamp)) :=
  Ok (parse_cell <$> col).

(** A database with the six tables, all empty and without constraints, and
    an empty log table. *)
Definition free_table : Db.table := Db.Table (fun _ => true) [].

Definition empty_store : Db.store :=
  Db.Store (list_to_map [("ds.ft_balance_f", free_table);
                         ("ds.ft_posting_f", free_table);
                         ("ds.md_account_d", free_table);
                         ("ds.md_currency_d", free_table);
                         ("ds.md_exchange_rate_d", free_table);
                         ("ds.md_ledger_account_s", free_table)])
           (Some []).

Definition world_of (st : Db.store) : world :=
  World (Db.Connection st st []) [] [] 0.



(** An account file of two rows. *)
Definition account_frame : DataFrame :=
  Frame ["DATA_ACTUAL_DATE"; "ACCOUNT_RK"; "CHAR_TYPE"]
        [(0, [PyStr "01.01.2018"; PyInt 10; PyStr "A"]);
         (1, [PyStr "15.01.2018"; PyInt 11; PyStr "P"])].

Definition account_file (csv_path enc : string) : result DataFrame :=
  Ok account_frame.

(** A posting table that holds three rows of an earlier load, and a posting
    file of two rows. *)
Definition posting_store : Db.store :=
  Db.Store (<["ds.ft_posting_f" :=
              Db.Table (fun _ => true)
                       [ {["oper_date" := VStr "2018-01-09"; "credit_amount" := VStr "1.5"]};
                         {["oper_date" := VStr "2018-01-09"; "credit_amount" := VStr "2.5"]};
                         {["oper_date" := VStr "2018-01-10"; "credit_amount" := VStr "3.5"]} ]]>
              (Db.tables empty_store))
           (Some []).

Definition posting_frame : DataFrame :=
  Frame ["OPER_DATE"; "CREDIT_AMOUNT"]
        [(0, [PyStr "15.01.2018"; PyFloat (FNum "10.0")]);
         (1, [PyStr "15.01.2018"; PyFloat (FNum "20.5")])].

Definition posting_file (csv_path enc : string) : result DataFrame :=
  Ok posting_frame.



(** A balance file whose second row has a date that does not parse. *)
Definition balance_frame : DataFrame :=
  Frame ["ON_DATE"; "ACCOUNT_RK"; "BALANCE_OUT"]
        [(0, [PyStr "01.01.2018"; PyInt 10; PyFloat (FNum "5.0")]);
         (1, [PyStr "31.31.2018"; PyInt 11; PyFloat (FNum "6.0")]);
         (2, [PyStr "15.01.2018"; PyInt 12; PyFloat (FNum "7.0")])].

Definition balance_file (csv_path enc : string) : result DataFrame :=
  Ok balance_frame.







(** A file that no encoding decodes. *)
Definition binary_file (csv_path enc : string) : result DataFrame :=
  Raise UnicodeDecodeError.

(** A database with the log table and no other, and a posting file that
    holds its header and no row. *)
Definition bare_store : Db.store := Db.Store ∅ (Some []).

Definition header_frame : DataFrame := Frame ["OPER_DATE"; "CREDIT_AMOUNT"] [].

Definition header_file (csv_path enc : string) : result DataFrame :=
  Ok header_frame.

(** A balance file that holds the two key columns of its table only. *)
Definition key_frame : DataFrame :=
  Frame ["ON_DATE"; "ACCOUNT_RK"]
        [(0, [PyStr "01.01.2018"; PyInt 10]);
         (1, [PyStr "15.01.2018"; PyInt 11])].

Definition key_file (csv_path enc : string) : result DataFrame := Ok key_frame.

End Example.

(** ** The stages of a load *)

(** Names for the parts of [load_table] and for what its loops compute, in
    which the properties are stated. *)

Global Instance reason_eq_dec : EqDecision reason.
Proof. solve_decision. Defined.
Global Instance status_eq_dec : EqDecision Db.status.
Proof. solve_decision. Defined.
Global Instance log_entry_eq_dec : EqDecision Db.log_entry.
Proof. solve_decision. Defined.

(** The world when the [try] block of [load_table] is entered. *)
Definition started (table_name : string) (w : world) : world :=
  World (conn w) (bad_rows_log w) (stdout w ++ [PrintStart table_name (clock w)])
        (clock w + 5).

(** The steps of the [try] block up to the commit: read, normalise,
    validate, coerce and insert. *)
Definition stages (pd_read_csv : string -> string -> result DataFrame)
    (pd_to_datetime : list pyobj -> result (list (option timestamp)))
    (table_name csv_path : string) : M DataFrame :=
  df <- prepare pd_read_csv pd_to_datetime table_name csv_path;;
  insert table_name df;;
  ret df.

(** The end of the [try] block, lines 155-158. *)
Definition on_success (table_name : string) (start : nat) (df : DataFrame) : M unit :=
  conn_commit;;
  sleep 2;;
  end_ <- now;;
  log_event table_name start end_ (length (rows df)) Db.SUCCESS None.

(** The [except] block, lines 160-164. *)
Definition on_failure (table_name : string) (start : nat) (e : exn) : M unit :=
  conn_rollback;;
  end_ <- now;;
  log_event table_name start end_ 0 Db.FAILURE (Some e);;
  print (PrintLoadError table_name e).

(** The entry of the last [INSERT INTO LOGS.etl_log] sent over a
    connection. *)
Definition log_of_call (c : Db.call) : option Db.log_entry :=
  match c with
  | Db.Execute (Db.InsertLog e) => Some e
  | _ => None
  end.

Definition reported (c : Db.connection) : option Db.log_entry :=
  last (omap log_of_call (Db.calls c)).

(** The rows that the loop over the currency table rejects, and what it
    writes for one. *)
Definition rejected (cols : list string) (r : nat * list pyobj) : Prop :=
  currency_reasons cols r <> [].

Definition bad_entry (table_name : string) (cols : list string)
    (r : nat * list pyobj) : bad_row :=
  BadRow table_name (r.1 + 2) (zip cols r.2) (currency_reasons cols r).

Definition fixed_frame (df : DataFrame) (rs : list (nat * list pyobj)) : DataFrame :=
  foldl (fun d r => fix_iso r d) df rs.

(** The store a statement leaves: the new one, or the old one when the
    statement fails. *)
Definition store_after (s : Db.statement) (st : Db.store) : Db.store :=
  match Db.run s st with
  | inr st' => st'
  | inl _ => st
  end.

(** The pending store after the fallback went over the rows, and the errors
    it met, each with the number it is printed under. *)
Definition fallback_store (q : Db.query) (values : list (list value))
    (st : Db.store) : Db.store :=
  foldl (fun st row => store_after (Db.InsertRow q row) st) st values.

Fixpoint fallback_errors (q : Db.query) (i : nat) (values : list (list value))
    (st : Db.store) : list output :=
  match values with
  | [] => []
  | row :: values' =>
      match Db.run (Db.InsertRow q row) st with
      | inr st' => fallback_errors q (S i) values' st'
      | inl e =>
          PrintRowError (i + 1) row (DatabaseError e)
          :: fallback_errors q (S i) values' st
      end
  end.

Global Instance rejected_dec (cols : list string) (r : nat * list pyobj) :
  Decision (rejected cols r).
Proof. unfold rejected. apply _. Defined.

(** The calls that a statement on the data makes, as opposed to the log and
    to the end of a transaction. *)
Definition data_call (c : Db.call) : bool :=
  match c with
  | Db.Execute (Db.DeleteFrom _)
  | Db.Execute (Db.InsertValues _ _)
  | Db.Execute (Db.InsertRow _ _) => true
  | _ => false
  end.

(** [w'] comes from [w] by statements on the data alone: nothing was
    committed, the log table and the clock are as they were, and the audit
    file has at most grown. *)
Record data_steps (w w' : world) : Prop := DataSteps {
  ds_committed : Db.committed (conn w') = Db.committed (conn w);
  ds_etl_log : Db.etl_log (Db.pending (conn w')) = Db.etl_log (Db.pending (conn w));
  ds_clock : clock w' = clock w;
  ds_bad_rows : exists entries, bad_rows_log w' = bad_rows_log w ++ entries;
  ds_calls : exists cs, Db.calls (conn w') = Db.calls (conn w) ++ cs
                        /\ forallb data_call cs = true
}.



(** Whether a table takes a tuple of values, and the rows of the table after
    the tuples of a list were offered to it one by one. *)
Definition accepted (q : Db.query) (t : Db.table) (vals : list value) : bool :=
  bool_decide (Db.refusal q t (Db.incoming q vals) = None).

Definition apply_row (q : Db.query) (t : Db.table) (rs : list (gmap string value))
    (vals : list value) : list (gmap string value) :=
  if accepted q t vals then Db.put_row q (Db.incoming q vals) rs else rs.

Definition apply_rows (q : Db.query) (t : Db.table) (values : list (list value))
    (rs : list (gmap string value)) : list (gmap string value) :=
  foldl (apply_row q t) rs values.

(** The keys of a table after a row with the key [k] was put into it. *)
Definition put_key (ks : list (list value)) (k : list value) : list (list value) :=
  if bool_decide (k ∈ ks) then ks else ks ++ [k].

(** The frame that [prepare] returns; it does not depend on the world. *)
Definition prepared_frame (pd_read_csv : string -> string -> result DataFrame)
    (pd_to_datetime : list pyobj -> result (list (option timestamp)))
    (table_name csv_path : string) : result DataFrame :=
  match read_csv_safe pd_read_csv csv_path with
  | Raise e => Raise e
  | Ok df0 =>
      match (if decide (table_name = "ds.md_exchange_rate_d")
             then exchange_rate_rule table_name (normalize pd_to_datetime df0)
             else Ok (normalize pd_to_datetime df0)) with
      | Raise e => Raise e
      | Ok df =>
          Ok (if decide (table_name = "ds.md_currency_d")
              then drop (filter (rejected (columns df)) (rows df)).*1
                        (fixed_frame df (rows df))
              else df)
      end
  end.

(** The tuples that go to the database. *)
Definition batch (df : DataFrame) : result (list (list value)) :=
  map_result (map_result convert_value) (to_numpy df).

(** The world in which the batch is inserted: for the full-replace table
    the rows of the table were deleted just before. *)
Definition before_insert (table_name : string) (w : world) : world :=
  if decide (table_name = "ds.ft_posting_f")
  then (cur_execute (Db.DeleteFrom "ds.ft_posting_f") w).1
  else w.



(** ** The entry point *)

(** [main], etl.py lines 167-184.  The connection is what
    the call of psycopg2.connect with DB_CONFIG returns or raises; the tables are loaded
    in the order of the dictionary [files].  The two lines that [main] prints
    itself are kept apart from the lines of the loads, and the last field
    tells that the connection was closed. *)
Definition files : list (string * string) :=
  [("ds.ft_balance_f", "data/ft_balance_f.csv");
   ("ds.ft_posting_f", "data/ft_posting_f.csv");
   ("ds.md_account_d", "data/md_account_d.csv");
   ("ds.md_currency_d", "data/md_currency_d.csv");
   ("ds.md_exchange_rate_d", "data/md_exchange_rate_d.csv");
   ("ds.md_ledger_account_s", "data/md_ledger_account_s.csv")].

Inductive main_line :=
| PrintLoading (table : string)
| PrintDone.

Record finished := Finished {
  f_world : world;
  f_lines : list main_line;
  f_closed : bool
}.

(** The loop [for table, path in files.items()]. *)
Fixpoint load_all (pd_read_csv : string -> string -> result DataFrame)
    (pd_to_datetime : list pyobj -> result (list (option timestamp)))
    (fs : list (string * string)) (lines : list main_line) (w : world)
  : world * list main_line * result unit :=
  match fs with
  | [] => (w, lines, Ok tt)
  | (table, path) :: fs' =>
      match load_table pd_read_csv pd_to_datetime table path w with
      | (w', Ok _) =>
          load_all pd_read_csv pd_to_datetime fs' (lines ++ [PrintLoading table]) w'
      | (w', Raise e) => (w', lines ++ [PrintLoading table], Raise e)
      end
  end.

Definition main (pd_read_csv : string -> string -> result DataFrame)
    (pd_to_datetime : list pyobj -> result (list (option timestamp)))
    (connect : result Db.connection) (w : world) : result finished :=
  match connect with
  | Raise e => Raise e
  | Ok c =>
      match load_all pd_read_csv pd_to_datetime files []
                     (World c (bad_rows_log w) (stdout w) (clock w)) with
      | (w', lines, Ok _) => Ok (Finished w' (lines ++ [PrintDone]) true)
      | (_, _, Raise e) => Raise e
      end
  end.

(** The tables of the log entries sent over a connection, in order. *)
Definition logged_tables (cs : list Db.call) : list string :=
  Db.le_table <$> omap log_of_call cs.

(** * Properties *)

(** ** The reader *)

Section Reader.

Variable pd_read_csv : string -> string -> result DataFrame.
Variable csv_path : string.

Abbreviation attempts := (read_attempts pd_read_csv csv_path).

Lemma read_attempts_decode_errors (pre encs : list string) :
  Forall (fun enc => pd_read_csv csv_path enc = Raise UnicodeDecodeError) pre ->
  attempts (pre ++ encs) = (pre ++ (attempts encs).1, (attempts encs).2).
Proof.
  induction 1 as [|enc pre Henc _ IH]; simpl.
  - by destruct (attempts encs).
  - by rewrite Henc, IH.
Qed.

Lemma read_attempts_success (pre post : list string) (enc : string) (df : DataFrame) :
  Forall (fun enc => pd_read_csv csv_path enc = Raise UnicodeDecodeError) pre ->
  pd_read_csv csv_path enc = Ok df ->
  attempts (pre ++ enc :: post) = (pre ++ [enc], Ok df).
Proof.
  intros Hpre Henc. rewrite read_attempts_decode_errors by done.
  simpl. by rewrite Henc.
Qed.

Lemma read_attempts_other_error (pre post : list string) (enc : string) (e : exn) :
  Forall (fun enc => pd_read_csv csv_path enc = Raise UnicodeDecodeError) pre ->
  pd_read_csv csv_path enc = Raise e ->
  is_unicode_decode_error e = false ->
  attempts (pre ++ enc :: post) = (pre ++ [enc], Raise e).
Proof.
  intros Hpre Henc He. rewrite read_attempts_decode_errors by done.
  simpl. by rewrite Henc, He.
Qed.

Lemma read_attempts_no_success (encs : list string) :
  Forall (fun enc => exists e, pd_read_csv csv_path enc = Raise e) encs ->
  exists e, (attempts encs).2 = Raise e.
Proof.
  induction 1 as [|enc encs [e He] _ [e' IH]]; simpl.
  - by exists NoEncoding.
  - rewrite He. destruct (is_unicode_decode_error e); simpl; eauto.
Qed.

(** C7. The reader tries utf-8, cp1251 and ISO-8859-1 in this order and
    returns the first parse that succeeds: a file that parses under an
    encoding and fails to decode under every earlier one is loaded with
    that encoding, after exactly the earlier ones were tried; and when the
    file parses under no encoding the reader raises. *)
Theorem read_csv_safe_first_success :
  encodings = ["utf-8"; "cp1251"; "ISO-8859-1"]
  /\ (forall pre enc post df,
        encodings = pre ++ enc :: post ->
        Forall (fun enc' => pd_read_csv csv_path enc' = Raise UnicodeDecodeError) pre ->
        pd_read_csv csv_path enc = Ok df ->
        read_csv_safe pd_read_csv csv_path = Ok df
        /\ (attempts encodings).1 = pre ++ [enc])
  /\ ((forall enc, enc ∈ encodings -> exists e, pd_read_csv csv_path enc = Raise e) ->
      exists e, read_csv_safe pd_read_csv csv_path = Raise e)
  /\ (Forall (fun enc => pd_read_csv csv_path enc = Raise UnicodeDecodeError) encodings ->
      read_csv_safe pd_read_csv csv_path = Raise NoEncoding).
Proof.
  split; [done|]. split; [|split].
  - intros pre enc post df Hencs Hpre Henc. unfold read_csv_safe.
    rewrite Hencs. by rewrite (read_attempts_success pre post enc df).
  - intros Hall. apply read_attempts_no_success, Forall_forall. done.
  - intros Hall. unfold read_csv_safe.
    rewrite <- (app_nil_r encodings).
    by rewrite read_attempts_decode_errors.
Qed.

(** C10. Only a decode error makes the reader go on to the next encoding:
    when the parse under an encoding raises anything else (and the earlier
    encodings raised decode errors), the reader raises that error at once
    and none of the later encodings is tried. *)
Theorem read_csv_safe_other_error_propagates
    (pre post : list string) (enc : string) (e : exn) :
  encodings = pre ++ enc :: post ->
  Forall (fun enc' => pd_read_csv csv_path enc' = Raise UnicodeDecodeError) pre ->
  pd_read_csv csv_path enc = Raise e ->
  is_unicode_decode_error e = false ->
  read_csv_safe pd_read_csv csv_path = Raise e
  /\ (attempts encodings).1 = pre ++ [enc]
  /\ (forall later, later ∈ post -> later ∉ (attempts encodings).1).
Proof.
  intros Hencs Hpre Henc He. unfold read_csv_safe. rewrite Hencs.
  rewrite (read_attempts_other_error pre post enc e) by done.
  split; [done|]. split; [done|]. simpl. intros later Hlater Hin.
  assert (Hnd : NoDup (pre ++ enc :: post)).
  { rewrite <- Hencs. by apply (bool_decide_unpack (NoDup encodings)). }
  apply NoDup_app in Hnd as (_ & Hdisj & Hnd).
  apply NoDup_cons in Hnd as [Hnotin _].
  apply elem_of_app in Hin as [Hin|Hin%list_elem_of_singleton].
  - apply (Hdisj later Hin). by right.
  - by subst.
Qed.

End Reader.

Lemma read_csv_safe_first_success_witness :
  read_csv_safe Example.cyrillic_file "data/md_account_d.csv" = Ok Example.cyrillic_frame
  /\ (read_attempts Example.cyrillic_file "data/md_account_d.csv" encodings).1
     = ["utf-8"; "cp1251"].
Proof.
  destruct (read_csv_safe_first_success Example.cyrillic_file "data/md_account_d.csv")
    as (_ & H & _).
  apply (H ["utf-8"] "cp1251" ["ISO-8859-1"]).
  - reflexivity.
  - repeat constructor.
  - reflexivity.
Defined.

Lemma read_csv_safe_other_error_propagates_witness :
  read_csv_safe Example.malformed_file "data/md_account_d.csv"
  = Raise (ReadError "Expected 2 fields, saw 3")
  /\ (read_attempts Example.malformed_file "data/md_account_d.csv" encodings).1 = ["utf-8"]
  /\ (forall later, later ∈ ["cp1251"; "ISO-8859-1"] ->
      later ∉ (read_attempts Example.malformed_file "data/md_account_d.csv" encodings).1).
Proof.
  apply (read_csv_safe_other_error_propagates Example.malformed_file
           "data/md_account_d.csv" [] ["cp1251"; "ISO-8859-1"] "utf-8").
  - reflexivity.
  - constructor.
  - reflexivity.
  - reflexivity.
Defined.

(** ** The coercion of cells *)


(** A cell is coerced to NULL exactly when it is null. *)
Lemma convert_value_null (v : pyobj) (x : value) :
  convert_value v = Ok x -> (x = VNone <-> isnull v = true).
Proof.
  unfold convert_value.
  destruct v as [| |[]|? []| | | | | | | |]; simpl; intros ?; simplify_eq; by split.
Qed.

(** C8 (the code departs from the claim). The second branch of
    [convert_value] takes a [np.datetime64] for a date-like value and calls
    [v.date()] on it; the scalar has no such method, so that the call raises
    where the claim promises a calendar date. *)
Theorem convert_value_datetime64_raises (t : timestamp) :
  isnull (NpDatetime64 t) = false
  /\ is_datetime (NpDatetime64 t) = true
  /\ convert_value (NpDatetime64 t) = Raise (AttributeError "date")
  /\ (forall x, convert_value (NpDatetime64 t) <> Ok x).
Proof. done. Qed.

(** ** The normaliser *)

Section Normaliser.

Variable pd_to_datetime : list pyobj -> result (list (option timestamp)).

Abbreviation parse_column := (parse_date_column pd_to_datetime).
Abbreviation parsed_frame := (parse_dates pd_to_datetime).
Abbreviation normalized := (normalize pd_to_datetime).

Lemma columns_set_column (j : nat) (vals : list pyobj) (df : DataFrame) :
  columns (set_column j vals df) = columns df.
Proof. done. Qed.

Lemma columns_parse_column (df : DataFrame) (j : nat) :
  columns (parse_column df j) = columns df.
Proof. unfold parse_date_column. by destruct (pd_to_datetime _). Qed.

Lemma columns_foldl_parse (js : list nat) (df : DataFrame) :
  columns (foldl parse_column df js) = columns df.
Proof.
  revert df. induction js as [|j js IH]; intros df; simpl; [done|].
  by rewrite IH, columns_parse_column.
Qed.

Lemma columns_normalize (df : DataFrame) :
  columns (normalized df) = Str.lower <$> columns df.
Proof. unfold normalize, parse_dates. simpl. by rewrite columns_foldl_parse. Qed.

Lemma date_positions_normalize (df : DataFrame) :
  date_positions (normalized df) = date_positions (lower_columns df).
Proof. unfold date_positions. by rewrite columns_normalize. Qed.

Lemma date_positions_parse_dates (df : DataFrame) :
  date_positions (parsed_frame df) = date_positions df.
Proof. unfold date_positions, parse_dates. by rewrite columns_foldl_parse. Qed.

(** The labels of the rows stay as they are when columns are parsed. *)
Lemma labels_set_column (j : nat) (vals : list pyobj) (df : DataFrame) :
  (rows (set_column j vals df)).*1 = (rows df).*1.
Proof.
  apply list_eq. intros i. simpl.
  rewrite !list_lookup_fmap, list_lookup_imap. by destruct (rows df !! i).
Qed.

Lemma labels_parse_column (df : DataFrame) (j : nat) :
  (rows (parse_column df j)).*1 = (rows df).*1.
Proof.
  unfold parse_date_column. destruct (pd_to_datetime _); [|done].
  apply labels_set_column.
Qed.

Lemma labels_foldl_parse (js : list nat) (df : DataFrame) :
  (rows (foldl parse_column df js)).*1 = (rows df).*1.
Proof.
  revert df. induction js as [|j js IH]; intros df; simpl; [done|].
  by rewrite IH, labels_parse_column.
Qed.

(** Writing the column at [j'] leaves the column at [j] as it was. *)
Lemma column_set_column_ne (j j' : nat) (vals : list pyobj) (df : DataFrame) :
  j <> j' -> column j (set_column j' vals df) = column j df.
Proof.
  intros Hne. unfold column, set_column. apply list_eq. intros i. simpl.
  rewrite !list_lookup_fmap, list_lookup_imap.
  destruct (rows df !! i) as [r|]; simpl; [|done].
  unfold cell_at. simpl. by rewrite list_lookup_insert_ne.
Qed.

Lemma column_parse_column_ne (j j' : nat) (df : DataFrame) :
  j <> j' -> column j (parse_column df j') = column j df.
Proof.
  intros Hne. unfold parse_date_column. destruct (pd_to_datetime _); [|done].
  by apply column_set_column_ne.
Qed.

Lemma column_foldl_parse_notin (js : list nat) (j : nat) (df : DataFrame) :
  j ∉ js -> column j (foldl parse_column df js) = column j df.
Proof.
  revert df. induction js as [|j' js IH]; intros df Hj; simpl; [done|].
  apply not_elem_of_cons in Hj as [Hne Hj].
  by rewrite IH, column_parse_column_ne.
Qed.

(** A cell that was written from an unparsable entry is null. *)
Lemma column_set_column_null (j i : nat) (vals : list pyobj) (df : DataFrame) (v : pyobj) :
  isnull (default PyNone (vals !! i)) = true ->
  column j (set_column j vals df) !! i = Some v ->
  isnull v = true.
Proof.
  intros Hnull. unfold column, set_column. simpl.
  rewrite list_lookup_fmap, list_lookup_imap.
  destruct (rows df !! i) as [r|]; simpl; [|done].
  intros [= <-]. unfold cell_at. simpl.
  destruct (decide (j < length r.2)) as [Hlt|Hge].
  - by rewrite list_lookup_insert_eq.
  - rewrite list_insert_ge by lia. by rewrite lookup_ge_None_2 by lia.
Qed.

Lemma column_foldl_parse_null (js : list nat) (j i : nat) (df : DataFrame)
    (parsed : list (option timestamp)) (v : pyobj) :
  NoDup js -> j ∈ js ->
  pd_to_datetime (column j df) = Ok parsed ->
  default None (parsed !! i) = None ->
  column j (foldl parse_column df js) !! i = Some v ->
  isnull v = true.
Proof.
  revert df. induction js as [|j' js IH]; intros df Hnd Hj Hparsed Hi; [by inversion Hj|].
  apply NoDup_cons in Hnd as [Hnotin Hnd]. simpl.
  destruct (decide (j = j')) as [<-|Hne].
  - rewrite column_foldl_parse_notin by done.
    unfold parse_date_column. rewrite Hparsed.
    apply column_set_column_null. rewrite list_lookup_fmap.
    by destruct (parsed !! i) as [[t|]|]; simplify_eq/=.
  - apply IH; [done| |by rewrite column_parse_column_ne|done].
    by apply elem_of_cons in Hj as [?|?].
Qed.

End Normaliser.

Lemma date_positions_from_ge (n j : nat) (cols : list string) :
  j ∈ date_positions_from n cols -> n <= j.
Proof.
  revert n. induction cols as [|c cols IH]; intros n; simpl; [by inversion 1|].
  destruct (is_date_col c).
  - intros [->|Hj%IH]%elem_of_cons; lia.
  - intros Hj%IH. lia.
Qed.

Lemma date_positions_from_NoDup (n : nat) (cols : list string) :
  NoDup (date_positions_from n cols).
Proof.
  revert n. induction cols as [|c cols IH]; intros n; simpl; [constructor|].
  destruct (is_date_col c); [|done].
  constructor; [|done]. intros Hn%date_positions_from_ge. lia.
Qed.

(** In a list with distinct labels, a row that a filter drops leaves no row
    of its label behind. *)
Lemma label_dropped_by_filter {A} (P : nat * A -> Prop) `{!forall r, Decision (P r)}
    (l : list (nat * A)) (i : nat) (r : nat * A) :
  NoDup l.*1 -> l !! i = Some r -> ~ P r -> r.1 ∉ (filter P l).*1.
Proof.
  intros Hnd Hi HP Hin.
  apply list_elem_of_fmap in Hin as (r' & Hlabel & Hr').
  apply list_elem_of_filter in Hr' as [HP' Hr'].
  apply list_elem_of_lookup in Hr' as [i' Hi'].
  assert (i = i') as ->.
  { eapply NoDup_lookup; [done| |].
    - by rewrite list_lookup_fmap, Hi.
    - by rewrite list_lookup_fmap, Hi', Hlabel. }
  by simplify_eq.
Qed.

Section Dropped.

Variable pd_to_datetime : list pyobj -> result (list (option timestamp)).

Lemma labels_normalize_filter (df : DataFrame) :
  (rows (normalize pd_to_datetime df)).*1
  = (filter (has_dates (parse_dates pd_to_datetime (lower_columns df)))
            (rows (parse_dates pd_to_datetime (lower_columns df)))).*1.
Proof.
  unfold normalize, where_notnull, dropna_dates. simpl.
  rewrite <- list_fmap_compose. by apply list_fmap_ext.
Qed.

(** Every row of the normalised frame has a value in each date column. *)
Lemma normalize_has_dates (df : DataFrame) (r : nat * list pyobj) (j : nat) :
  r ∈ rows (normalize pd_to_datetime df) ->
  j ∈ date_positions (lower_columns df) ->
  isnull (cell_at j r) = false.
Proof.
  unfold normalize, where_notnull, dropna_dates. simpl.
  intros (r' & -> & Hr')%list_elem_of_fmap Hj.
  apply list_elem_of_filter in Hr' as [Hdates _].
  unfold has_dates in Hdates. apply Is_true_true in Hdates.
  rewrite forallb_forall in Hdates.
  rewrite date_positions_parse_dates in Hdates.
  specialize (Hdates j). rewrite <- list_elem_of_In in Hdates.
  specialize (Hdates Hj). unfold cell_at in *. simpl.
  rewrite list_lookup_fmap. destruct (r'.2 !! j) as [v|]; simpl in *; [|done].
  unfold notnull in *. by destruct (isnull v) eqn:Hv.
Qed.

(** A row one of whose dates did not parse is not in the normalised frame. *)
Lemma normalize_drops_row (df : DataFrame) (i j : nat) (r : nat * list pyobj)
    (parsed : list (option timestamp)) :
  NoDup (rows df).*1 ->
  rows df !! i = Some r ->
  j ∈ date_positions (lower_columns df) ->
  pd_to_datetime (column j df) = Ok parsed ->
  default None (parsed !! i) = None ->
  r.1 ∉ (rows (normalize pd_to_datetime df)).*1.
Proof.
  intros Hnd Hi Hj Hparsed Hnat. rewrite labels_normalize_filter.
  set (pf := parse_dates pd_to_datetime (lower_columns df)).
  assert (Hlabels : (rows pf).*1 = (rows df).*1).
  { unfold pf, parse_dates. by rewrite labels_foldl_parse. }
  assert (Hlabel : (rows pf).*1 !! i = Some r.1).
  { by rewrite Hlabels, list_lookup_fmap, Hi. }
  rewrite list_lookup_fmap in Hlabel.
  destruct (rows pf !! i) as [r'|] eqn:Hi'; simplify_eq/=.
  rewrite <- Hlabel. eapply label_dropped_by_filter; [by rewrite Hlabels|done|].
  assert (Hnull : isnull (cell_at j r') = true).
  { eapply (column_foldl_parse_null pd_to_datetime
              (date_positions (lower_columns df)) j i (lower_columns df) parsed).
    - apply date_positions_from_NoDup.
    - done.
    - done.
    - done.
    - fold (parse_dates pd_to_datetime (lower_columns df)). fold pf.
      unfold column. by rewrite list_lookup_fmap, Hi'. }
  unfold has_dates. intros Hall%Is_true_true. rewrite forallb_forall in Hall.
  specialize (Hall j). rewrite <- list_elem_of_In in Hall.
  unfold pf in Hall. rewrite date_positions_parse_dates in Hall.
  specialize (Hall Hj). unfold notnull in Hall. by rewrite Hnull in Hall.
Qed.

End Dropped.

(** ** The steps on the connection *)

Lemma cur_execute_run (s : Db.statement) (w : world) :
  cur_execute s w
  = (World (Db.Connection (Db.committed (conn w))
                          (store_after s (Db.pending (conn w)))
                          (Db.calls (conn w) ++ [Db.Execute s]))
           (bad_rows_log w) (stdout w) (clock w),
     match Db.run s (Db.pending (conn w)) with
     | inl e => Raise (DatabaseError e)
     | inr _ => Ok tt
     end).
Proof.
  unfold cur_execute, Db.execute, store_after.
  by destruct (Db.run s (Db.pending (conn w))).
Qed.

Lemma row_fallback_run (table_name : string) (q : Db.query)
    (values : list (list value)) (i failed : nat) (w : world) :
  row_fallback table_name q i values failed w
  = (World (Db.Connection (Db.committed (conn w))
                          (fallback_store q values (Db.pending (conn w)))
                          (Db.calls (conn w)
                           ++ ((fun row => Db.Execute (Db.InsertRow q row)) <$> values)))
           (bad_rows_log w)
           (stdout w ++ fallback_errors q i values (Db.pending (conn w)))
           (clock w),
     Ok (failed + length (fallback_errors q i values (Db.pending (conn w))))).
Proof.
  revert i failed w. induction values as [|row values IH]; intros i failed w.
  - destruct w as [[cm pd cs] lg out clk]. simpl. unfold ret.
    by rewrite !app_nil_r, Nat.add_0_r.
  - simpl. unfold bind at 1. unfold try_except, bind at 1.
    rewrite cur_execute_run. unfold store_after.
    destruct (Db.run (Db.InsertRow q row) (Db.pending (conn w))) as [e|st] eqn:Hrun.
    + unfold bind, print, ret. simpl. rewrite IH. simpl.
      unfold fallback_store. simpl.
      rewrite <- !app_assoc. simpl. do 2 f_equal. lia.
    + unfold ret. simpl. rewrite IH. simpl.
      unfold fallback_store. simpl.
      by rewrite <- !app_assoc.
Qed.

Lemma load_values_run (table_name : string) (q : Db.query)
    (values : list (list value)) (w : world) :
  load_values table_name q values w
  = match values with
    | [] => (w, Ok tt)
    | _ =>
        match Db.run (Db.InsertValues q values) (Db.pending (conn w)) with
        | inr st =>
            (World (Db.Connection (Db.committed (conn w)) st
                      (Db.calls (conn w) ++ [Db.Execute (Db.InsertValues q values)]))
                   (bad_rows_log w) (stdout w) (clock w), Ok tt)
        | inl e =>
            (World (Db.Connection (Db.committed (conn w))
                      (fallback_store q values (Db.pending (conn w)))
                      (Db.calls (conn w)
                       ++ Db.Execute (Db.InsertValues q values)
                          :: ((fun row => Db.Execute (Db.InsertRow q row)) <$> values)))
                   (bad_rows_log w)
                   (stdout w
                    ++ [PrintBulkError table_name (DatabaseError e); PrintFallback]
                    ++ fallback_errors q 0 values (Db.pending (conn w))
                    ++ [PrintFailedRows
                          (length (fallback_errors q 0 values (Db.pending (conn w))))])
                   (clock w), Ok tt)
        end
    end.
Proof.
  unfold load_values, try_except, execute_values.
  destruct values as [|row values]; [done|].
  rewrite cur_execute_run. unfold store_after.
  destruct (Db.run _ _) as [e|st] eqn:Hrun; [|done].
  generalize (row :: values). intros vs.
  unfold bind at 1. unfold print at 1. cbv beta iota.
  unfold bind at 1. unfold print at 1. cbv beta iota.
  unfold bind at 1. rewrite row_fallback_run.
  unfold print. simpl. by rewrite <- !app_assoc.
Qed.

Lemma log_event_run (table : string) (start_time end_time row_count : nat)
    (status : Db.status) (message : option exn) (w : world) :
  log_event table start_time end_time row_count status message w
  = let entry := Db.LogEntry table start_time end_time row_count status message in
    match Db.etl_log (Db.pending (conn w)) with
    | Some l =>
        let st := Db.Store (Db.tables (Db.pending (conn w))) (Some (l ++ [entry])) in
        (World (Db.Connection st st
                  (Db.calls (conn w) ++ [Db.Execute (Db.InsertLog entry); Db.Commit]))
               (bad_rows_log w) (stdout w) (clock w), Ok tt)
    | None =>
        (World (Db.Connection (Db.committed (conn w)) (Db.pending (conn w))
                  (Db.calls (conn w) ++ [Db.Execute (Db.InsertLog entry)]))
               (bad_rows_log w)
               (stdout w ++ [PrintLogError (DatabaseError (UndefinedTable "LOGS.etl_log"))])
               (clock w), Ok tt)
    end.
Proof.
  unfold log_event, try_except. unfold bind at 1. rewrite cur_execute_run.
  unfold store_after, Db.run. simpl.
  destruct (Db.etl_log (Db.pending (conn w))) as [l|]; simpl.
  - unfold conn_commit, Db.commit. simpl. by rewrite <- app_assoc.
  - done.
Qed.

(** ** The loop over the currency table *)

Lemma columns_fix_iso (r : nat * list pyobj) (df : DataFrame) :
  columns (fix_iso r df) = columns df.
Proof.
  unfold fix_iso. destruct (position _ _); [|done].
  by destruct (_ && _).
Qed.


Lemma currency_loop_run (table_name : string) (rs : list (nat * list pyobj))
    (df : DataFrame) (bad_rows : list nat) (w : world) :
  currency_loop table_name rs df bad_rows w
  = (World (conn w)
           (bad_rows_log w
            ++ (bad_entry table_name (columns df) <$> filter (rejected (columns df)) rs))
           (stdout w) (clock w),
     Ok (fixed_frame df rs, bad_rows ++ (filter (rejected (columns df)) rs).*1)).
Proof.
  revert df bad_rows w. induction rs as [|r rs IH]; intros df bad_rows w.
  - destruct w. simpl. unfold ret. simpl. by rewrite !app_nil_r.
  - simpl. rewrite filter_cons. unfold fixed_frame. simpl.
    destruct (decide (rejected (columns df) r)) as [Hrej|Hok].
    + unfold rejected in Hrej.
      destruct (currency_reasons (columns df) r) as [|reason reasons] eqn:Hreasons;
        [done|].
      unfold bind at 1. unfold log_bad_row. cbv beta iota.
      rewrite IH. rewrite columns_fix_iso. simpl.
      unfold bad_entry at 2. rewrite Hreasons.
      by rewrite <- !app_assoc.
    + unfold rejected in Hok. apply dec_stable in Hok. rewrite Hok.
      rewrite IH. by rewrite columns_fix_iso.
Qed.

Lemma currency_rule_run (table_name : string) (df : DataFrame) (w : world) :
  currency_rule table_name df w
  = (World (conn w)
           (bad_rows_log w
            ++ (bad_entry table_name (columns df)
                  <$> filter (rejected (columns df)) (rows df)))
           (stdout w ++ [PrintDropped (length (filter (rejected (columns df)) (rows df)))])
           (clock w),
     Ok (drop (filter (rejected (columns df)) (rows df)).*1
              (fixed_frame df (rows df)))).
Proof.
  unfold currency_rule. unfold bind at 1. rewrite currency_loop_run.
  unfold bind, print, ret. simpl. by rewrite length_fmap.
Qed.

(** ** Frames that can be coerced *)





Section Coercible.

Variable pd_to_datetime : list pyobj -> result (list (option timestamp)).




End Coercible.

Lemma keep_first_subseteq (cols subset : list string) (seen : list (list pyobj))
    (rs : list (nat * list pyobj)) (r : nat * list pyobj) :
  r ∈ keep_first cols subset seen rs -> r ∈ rs.
Proof.
  revert seen. induction rs as [|r' rs IH]; intros seen; simpl; [done|].
  case_bool_decide.
  - intros Hr%IH. by right.
  - intros [->|Hr%IH]%elem_of_cons; [by left|by right].
Qed.








(** ** The structure of a load *)

Lemma on_success_run (table_name : string) (start : nat) (df : DataFrame) (w : world) :
  on_success table_name start df w
  = log_event table_name start (clock w + 2) (length (rows df)) Db.SUCCESS None
      (World (Db.commit (conn w)) (bad_rows_log w) (stdout w) (clock w + 2)).
Proof. done. Qed.

Lemma on_failure_run (table_name : string) (start : nat) (e : exn) (w : world) :
  (on_failure table_name start e w).1
  = (print (PrintLoadError table_name e)
       (log_event table_name start (clock w) 0 Db.FAILURE (Some e)
          (World (Db.rollback (conn w)) (bad_rows_log w) (stdout w) (clock w))).1).1.
Proof.
  unfold on_failure. unfold bind at 1. unfold conn_rollback at 1. cbv beta iota.
  unfold bind at 1. unfold now at 1. cbv beta iota. simpl clock.
  unfold bind at 1. rewrite log_event_run. simpl.
  by destruct (Db.etl_log (Db.committed (conn w))).
Qed.

Lemma log_event_ok (table : string) (start_time end_time row_count : nat)
    (status : Db.status) (message : option exn) (w : world) :
  (log_event table start_time end_time row_count status message w).2 = Ok tt.
Proof. rewrite log_event_run. simpl. by destruct (Db.etl_log _). Qed.

Section Structure.

Variable pd_read_csv : string -> string -> result DataFrame.
Variable pd_to_datetime : list pyobj -> result (list (option timestamp)).

(** A load is its stages followed by the commit and the SUCCESS entry, or,
    when a stage raised, by the rollback and the FAILURE entry. *)
Lemma load_table_stages (table_name csv_path : string) (w : world) :
  after_load pd_read_csv pd_to_datetime table_name csv_path w
  = match stages pd_read_csv pd_to_datetime table_name csv_path (started table_name w) with
    | (w1, Ok df) => (on_success table_name (clock w) df w1).1
    | (w1, Raise e) => (on_failure table_name (clock w) e w1).1
    end.
Proof.
  unfold after_load, load_table, stages, on_success, on_failure, try_except,
    bind, now, print, sleep, ret, conn_commit, conn_rollback. simpl.
  fold (started table_name w).
  destruct (prepare _ _ _ _ _) as [w1 [df|e]]; [|done].
  destruct (insert _ _ _) as [w2 [[]|e]]; [|done].
  pose proof (log_event_ok table_name (clock w) (clock w2 + 2) (length (rows df))
                Db.SUCCESS None
                (World (Db.commit (conn w2)) (bad_rows_log w2) (stdout w2) (clock w2 + 2)))
    as Hok.
  destruct (log_event _ _ _ _ _ _ _) as [w3 [[]|e]]; [done|]. by simpl in Hok.
Qed.

End Structure.

(** ** Statements on the data *)

Lemma store_after_etl_log (s : Db.statement) (st : Db.store) :
  data_call (Db.Execute s) = true ->
  Db.etl_log (store_after s st) = Db.etl_log st.
Proof.
  unfold store_after, Db.run, Db.on_table.
  destruct s as [t|q values|q row|e]; simpl; intros Hs; [| | |done].
  - destruct (Db.tables st !! t); done.
  - destruct (Db.tables st !! Db.q_table q); [|done].
    by destruct (Db.insert_values q values _).
  - destruct (Db.tables st !! Db.q_table q); [|done].
    by destruct (Db.insert_row q row _).
Qed.

Lemma fallback_store_etl_log (q : Db.query) (values : list (list value))
    (st : Db.store) :
  Db.etl_log (fallback_store q values st) = Db.etl_log st.
Proof.
  revert st. induction values as [|row values IH]; intros st; [done|].
  unfold fallback_store in *. simpl. by rewrite IH, store_after_etl_log.
Qed.

Lemma data_steps_refl (w : world) : data_steps w w.
Proof.
  split; try done.
  - exists []. by rewrite app_nil_r.
  - exists []. by rewrite app_nil_r.
Qed.

Lemma data_steps_trans (w1 w2 w3 : world) :
  data_steps w1 w2 -> data_steps w2 w3 -> data_steps w1 w3.
Proof.
  intros [Hc1 Hl1 Hk1 [es1 Hb1] (cs1 & Hcs1 & Hd1)]
         [Hc2 Hl2 Hk2 [es2 Hb2] (cs2 & Hcs2 & Hd2)].
  split.
  - congruence.
  - congruence.
  - congruence.
  - exists (es1 ++ es2). by rewrite Hb2, Hb1, app_assoc.
  - exists (cs1 ++ cs2). split.
    + by rewrite Hcs2, Hcs1, app_assoc.
    + by rewrite forallb_app, Hd1, Hd2.
Qed.

Lemma cur_execute_data_steps (s : Db.statement) (w : world) :
  data_call (Db.Execute s) = true ->
  data_steps w (cur_execute s w).1.
Proof.
  intros Hs. rewrite cur_execute_run. split; simpl.
  - done.
  - by apply store_after_etl_log.
  - done.
  - exists []. by rewrite app_nil_r.
  - exists [Db.Execute s]. split; [done|]. by destruct s.
Qed.

Lemma forallb_data_call_rows (q : Db.query) (values : list (list value)) :
  forallb data_call ((fun row => Db.Execute (Db.InsertRow q row)) <$> values) = true.
Proof. by induction values. Qed.

Lemma load_values_data_steps (table_name : string) (q : Db.query)
    (values : list (list value)) (w : world) :
  data_steps w (load_values table_name q values w).1
  /\ (load_values table_name q values w).2 = Ok tt.
Proof.
  rewrite load_values_run. destruct values as [|row values].
  { split; [apply data_steps_refl|done]. }
  generalize (row :: values). intros vs.
  destruct (Db.run _ _) as [e|st] eqn:Hrun; simpl; (split; [|done]).
  - split; simpl.
    + done.
    + apply fallback_store_etl_log.
    + done.
    + exists []. by rewrite app_nil_r.
    + eexists. split; [done|]. simpl. apply forallb_data_call_rows.
  - split; simpl.
    + done.
    + pose proof (store_after_etl_log (Db.InsertValues q vs) (Db.pending (conn w)) eq_refl)
        as Hlog.
      unfold store_after in Hlog. by rewrite Hrun in Hlog.
    + done.
    + exists []. by rewrite app_nil_r.
    + by eexists.
Qed.

Lemma insert_data_steps (table_name : string) (df : DataFrame) (w : world) :
  data_steps w (insert table_name df w).1.
Proof.
  unfold insert. unfold bind at 1.
  assert (Hdel : exists w1 r,
    (if decide (table_name = "ds.ft_posting_f")
     then cur_execute (Db.DeleteFrom "ds.ft_posting_f") else ret tt) w = (w1, r)
    /\ data_steps w w1).
  { case_decide.
    - eexists _, _. split; [apply surjective_pairing|].
      by apply cur_execute_data_steps.
    - eexists _, _. split; [done|]. apply data_steps_refl. }
  destruct Hdel as (w1 & r & -> & Hw1). destruct r as [[]|e]; [|done].
  unfold bind, lift.
  destruct (map_result _ _) as [values|e]; [|done].
  eapply data_steps_trans; [done|]. apply load_values_data_steps.
Qed.

Lemma reported_snoc_log (cs : list Db.call) (entry : Db.log_entry) (post : list Db.call)
    (c : Db.connection) :
  Db.calls c = cs ++ Db.Execute (Db.InsertLog entry) :: post ->
  omap log_of_call post = [] ->
  reported c = Some entry.
Proof.
  intros Hc Hpost. unfold reported. rewrite Hc, omap_app.
  change (omap log_of_call (Db.Execute (Db.InsertLog entry) :: post))
    with (entry :: omap log_of_call post). rewrite Hpost.
  apply last_snoc.
Qed.

Section Orchestrator.

Variable pd_read_csv : string -> string -> result DataFrame.
Variable pd_to_datetime : list pyobj -> result (list (option timestamp)).

Abbreviation prepare' := (prepare pd_read_csv pd_to_datetime).
Abbreviation stages' := (stages pd_read_csv pd_to_datetime).
Abbreviation after_load' := (after_load pd_read_csv pd_to_datetime).

(** Reading, normalising and validating leave the connection alone. *)
Lemma prepare_world (table_name csv_path : string) (w : world) :
  exists entries outs,
    (prepare' table_name csv_path w).1
    = World (conn w) (bad_rows_log w ++ entries) (stdout w ++ outs) (clock w).
Proof.
  assert (Hw : w = World (conn w) (bad_rows_log w ++ []) (stdout w ++ []) (clock w)).
  { destruct w. simpl. by rewrite !app_nil_r. }
  unfold prepare, bind, lift, ret.
  destruct (read_csv_safe _ _) as [df0|e]; [|by exists [], []].
  case_decide.
  - destruct (exchange_rate_rule _ _) as [df|e]; [|by exists [], []].
    case_decide; [|by exists [], []].
    rewrite currency_rule_run. by eexists _, _.
  - case_decide; [|by exists [], []].
    rewrite currency_rule_run. by eexists _, _.
Qed.

Lemma prepare_data_steps (table_name csv_path : string) (w : world) :
  data_steps w (prepare' table_name csv_path w).1.
Proof.
  destruct (prepare_world table_name csv_path w) as (entries & outs & ->).
  split; simpl; try done.
  - by exists entries.
  - exists []. by rewrite app_nil_r.
Qed.

Lemma stages_data_steps (table_name csv_path : string) (w : world) :
  data_steps w (stages' table_name csv_path w).1.
Proof.
  unfold stages. unfold bind at 1.
  pose proof (prepare_data_steps table_name csv_path w) as Hprep.
  destruct (prepare' table_name csv_path w) as [w1 [df|e]]; [|done].
  unfold bind, ret.
  pose proof (insert_data_steps table_name df w1) as Hins.
  destruct (insert table_name df w1) as [w2 [[]|e]]; by eapply data_steps_trans.
Qed.


End Orchestrator.

(** What the end of a successful load leaves. *)
Lemma on_success_facts (table_name : string) (start : nat) (df : DataFrame) (w1 : world) :
  let w' := (on_success table_name start df w1).1 in
  let entry := Db.LogEntry table_name start (clock w1 + 2) (length (rows df))
                           Db.SUCCESS None in
  Db.tables (Db.committed (conn w')) = Db.tables (Db.pending (conn w1))
  /\ bad_rows_log w' = bad_rows_log w1
  /\ reported (conn w') = Some entry
  /\ (forall l, Db.etl_log (Db.pending (conn w1)) = Some l ->
                Db.etl_log (Db.committed (conn w')) = Some (l ++ [entry])).
Proof.
  simpl. rewrite on_success_run, log_event_run. simpl.
  destruct (Db.etl_log (Db.pending (conn w1))) as [l|]; simpl.
  - repeat split; try done.
    + eapply (reported_snoc_log (Db.calls (conn w1) ++ [Db.Commit]) _ [Db.Commit]);
        [|done]. simpl. by rewrite <- app_assoc.
    + by intros ? [= <-].
  - repeat split; try done.
    eapply (reported_snoc_log (Db.calls (conn w1) ++ [Db.Commit]) _ []); [|done].
    simpl. by rewrite <- app_assoc.
Qed.

Section Stages.

Variable pd_read_csv : string -> string -> result DataFrame.
Variable pd_to_datetime : list pyobj -> result (list (option timestamp)).


End Stages.

(** ** The currency table *)

Lemma labels_fix_iso (r : nat * list pyobj) (df : DataFrame) :
  (rows (fix_iso r df)).*1 = (rows df).*1.
Proof.
  unfold fix_iso. destruct (position _ _) as [j|]; [|done].
  destruct (_ && _); [|done]. simpl.
  rewrite <- list_fmap_compose. apply list_fmap_ext. intros i r' _. simpl.
  by case_decide.
Qed.

Lemma labels_fixed_frame (rs : list (nat * list pyobj)) (df : DataFrame) :
  (rows (fixed_frame df rs)).*1 = (rows df).*1.
Proof.
  revert df. induction rs as [|r rs IH]; intros df; [done|].
  unfold fixed_frame in *. simpl. by rewrite IH, labels_fix_iso.
Qed.




Section Currency.

Variable pd_read_csv : string -> string -> result DataFrame.
Variable pd_to_datetime : list pyobj -> result (list (option timestamp)).



End Currency.


(** ** Rows in a table *)

Lemma refusal_rows (q : Db.query) (t : Db.table) (rs : list (gmap string value))
    (new : gmap string value) :
  Db.refusal q (Db.Table (Db.t_accepts t) rs) new = Db.refusal q t new.
Proof. done. Qed.

Lemma accepted_rows (q : Db.query) (t : Db.table) (rs : list (gmap string value))
    (vals : list value) :
  accepted q (Db.Table (Db.t_accepts t) rs) vals = accepted q t vals.
Proof. done. Qed.

Lemma insert_row_apply (q : Db.query) (t : Db.table) (vals : list value) :
  match Db.insert_row q vals t with
  | inr t' => t' = Db.Table (Db.t_accepts t) (apply_row q t (Db.t_rows t) vals)
              /\ accepted q t vals = true
  | inl e => apply_row q t (Db.t_rows t) vals = Db.t_rows t
             /\ accepted q t vals = false
  end.
Proof.
  unfold Db.insert_row, apply_row, accepted.
  destruct (Db.refusal q t (Db.incoming q vals)) as [e|]; by case_bool_decide.
Qed.

Lemma store_after_insert_row (q : Db.query) (vals : list value) (st : Db.store)
    (t : Db.table) :
  Db.tables st !! Db.q_table q = Some t ->
  Db.tables (store_after (Db.InsertRow q vals) st) !! Db.q_table q
  = Some (Db.Table (Db.t_accepts t) (apply_row q t (Db.t_rows t) vals)).
Proof.
  intros Ht. unfold store_after, Db.run, Db.on_table. rewrite Ht.
  pose proof (insert_row_apply q t vals) as Hrow.
  destruct (Db.insert_row q vals t) as [e|t'].
  - destruct Hrow as [-> _]. rewrite Ht. by destruct t.
  - destruct Hrow as [-> _]. simpl. by rewrite lookup_insert_eq.
Qed.

Lemma fallback_store_table (q : Db.query) (values : list (list value))
    (st : Db.store) (t : Db.table) :
  Db.tables st !! Db.q_table q = Some t ->
  Db.tables (fallback_store q values st) !! Db.q_table q
  = Some (Db.Table (Db.t_accepts t) (apply_rows q t values (Db.t_rows t))).
Proof.
  revert st t. induction values as [|vals values IH]; intros st t Ht.
  - unfold fallback_store, apply_rows. simpl. rewrite Ht. by destruct t.
  - unfold fallback_store, apply_rows in *. simpl.
    by rewrite (IH _ _ (store_after_insert_row q vals st t Ht)).
Qed.

Lemma insert_rows_apply (q : Db.query) (values : list (list value)) (t t' : Db.table) :
  Db.insert_rows q values t = inr t' ->
  t' = Db.Table (Db.t_accepts t) (apply_rows q t values (Db.t_rows t))
  /\ forallb (accepted q t) values = true.
Proof.
  revert t. induction values as [|vals values IH]; intros t; simpl.
  - intros [= <-]. by destruct t.
  - pose proof (insert_row_apply q t vals) as Hrow.
    destruct (Db.insert_row q vals t) as [e|t1]; [done|].
    destruct Hrow as [-> Hacc]. intros [-> Hall]%IH. simpl. rewrite Hacc.
    split; [|done]. unfold apply_rows. simpl. f_equal.
Qed.

Lemma run_insert_values_table (q : Db.query) (values : list (list value))
    (st st' : Db.store) (t : Db.table) :
  Db.tables st !! Db.q_table q = Some t ->
  Db.run (Db.InsertValues q values) st = inr st' ->
  Db.tables st' !! Db.q_table q
  = Some (Db.Table (Db.t_accepts t) (apply_rows q t values (Db.t_rows t))).
Proof.
  intros Ht. unfold Db.run, Db.on_table, Db.insert_values. rewrite Ht.
  destruct (Db.insert_rows q values t) as [e|t'] eqn:Hrows; [done|].
  apply insert_rows_apply in Hrows as [-> _].
  destruct (Db.batch_keys_distinct q values); [|done].
  intros [= <-]. simpl. by rewrite lookup_insert_eq.
Qed.

(** Whatever way the loader takes, the table holds the rows it had with the
    tuples of the batch put into it one by one. *)
Lemma load_values_table (table_name : string) (q : Db.query)
    (values : list (list value)) (w : world) (t : Db.table) :
  Db.tables (Db.pending (conn w)) !! Db.q_table q = Some t ->
  Db.tables (Db.pending (conn (load_values table_name q values w).1)) !! Db.q_table q
  = Some (Db.Table (Db.t_accepts t) (apply_rows q t values (Db.t_rows t))).
Proof.
  intros Ht. rewrite load_values_run. destruct values as [|vals values].
  { simpl. rewrite Ht. by destruct t. }
  generalize dependent (vals :: values). clear vals values. intros values.
  destruct (Db.run _ _) as [e|st'] eqn:Hrun; simpl.
  - by apply fallback_store_table.
  - by eapply run_insert_values_table.
Qed.

(** ** Keys *)

Lemma cell_excluded_update (set : list string) (new old : gmap string value)
    (k : string) :
  Db.cell (Db.excluded_update set new old) k
  = if bool_decide (k ∈ set) then Db.cell new k else Db.cell old k.
Proof.
  induction set as [|c set IH]; simpl; [done|].
  unfold Db.cell at 1. rewrite lookup_insert.
  destruct (decide (c = k)) as [->|Hne]; simpl.
  - rewrite bool_decide_eq_true_2; [done|by left].
  - fold (Db.cell (Db.excluded_update set new old) k). rewrite IH.
    destruct (decide (k ∈ set)) as [Hin|Hout].
    + rewrite !bool_decide_eq_true_2; [done|by right|done].
    + rewrite !bool_decide_eq_false_2; [done| |done].
      by intros [->|?]%elem_of_cons.
Qed.

Lemma key_pointwise (pk : list string) (r r' : gmap string value) :
  Db.key pk r = Db.key pk r' <-> forall k, k ∈ pk -> Db.cell r k = Db.cell r' k.
Proof.
  unfold Db.key. induction pk as [|c pk IH]; simpl.
  - split; [by intros _ k Hk; inversion Hk|done].
  - split.
    + intros [= Hc Hpk] k [->|Hk]%elem_of_cons; [done|]. by apply IH.
    + intros Hall. f_equal.
      * apply Hall. by left.
      * apply IH. intros k Hk. apply Hall. by right.
Qed.

(** Merging the incoming row into the row it conflicts with leaves the key. *)
Lemma key_excluded_update (pk set : list string) (new old : gmap string value) :
  Db.key pk old = Db.key pk new ->
  Db.key pk (Db.excluded_update set new old) = Db.key pk old.
Proof.
  intros Hkey. apply key_pointwise. intros k Hk.
  rewrite cell_excluded_update. case_bool_decide; [|done].
  symmetry. by apply (key_pointwise pk old new).
Qed.

Lemma has_key_elem_of (pk : list string) (k : list value)
    (rs : list (gmap string value)) :
  Db.has_key pk k rs = bool_decide (k ∈ Db.key pk <$> rs).
Proof.
  unfold Db.has_key. apply bool_decide_ext.
  rewrite Exists_exists, list_elem_of_fmap.
  split; intros (r & H1 & H2); by exists r.
Qed.

Lemma keys_put_row (q : Db.query) (pk set : list string) (new : gmap string value)
    (rs : list (gmap string value)) :
  Db.q_conflict q = Some (pk, set) ->
  Db.key pk <$> Db.put_row q new rs = put_key (Db.key pk <$> rs) (Db.key pk new).
Proof.
  intros Hq. unfold Db.put_row, put_key. rewrite Hq, has_key_elem_of.
  case_bool_decide.
  - rewrite <- list_fmap_compose. apply list_fmap_ext. intros i r _. simpl.
    case_decide; [|done]. by apply key_excluded_update.
  - by rewrite fmap_app.
Qed.

Lemma length_put_row_conflict (q : Db.query) (pk set : list string)
    (new : gmap string value) (rs : list (gmap string value)) :
  Db.q_conflict q = Some (pk, set) ->
  length (Db.put_row q new rs) = length (put_key (Db.key pk <$> rs) (Db.key pk new)).
Proof. intros Hq. by rewrite <- (keys_put_row q pk set), length_fmap. Qed.

Lemma keys_apply_rows (q : Db.query) (pk set : list string) (t : Db.table)
    (values : list (list value)) (rs : list (gmap string value)) :
  Db.q_conflict q = Some (pk, set) ->
  Db.key pk <$> apply_rows q t values rs
  = foldl put_key (Db.key pk <$> rs)
          ((fun vals => Db.key pk (Db.incoming q vals))
             <$> filter (fun vals => accepted q t vals) values).
Proof.
  intros Hq. revert rs. unfold apply_rows.
  induction values as [|vals values IH]; intros rs; [done|].
  simpl. rewrite IH, filter_cons. unfold apply_row.
  destruct (accepted q t vals) eqn:Hacc.
  - rewrite decide_True by done. simpl. by rewrite (keys_put_row q pk set).
  - rewrite decide_False; [done|]. by intros [].
Qed.

Lemma put_key_mono (ks : list (list value)) (k k' : list value) :
  k' ∈ ks -> k' ∈ put_key ks k.
Proof. unfold put_key. case_bool_decide; [done|]. intros ?. apply elem_of_app. by left. Qed.

Lemma put_key_in (ks : list (list value)) (k : list value) : k ∈ put_key ks k.
Proof.
  unfold put_key. case_bool_decide; [done|]. apply elem_of_app. right. by left.
Qed.


Lemma foldl_put_key_mono (l ks : list (list value)) (k : list value) :
  k ∈ ks -> k ∈ foldl put_key ks l.
Proof.
  revert ks. induction l as [|k' l IH]; intros ks Hk; [done|].
  simpl. by apply IH, put_key_mono.
Qed.

Lemma foldl_put_key_in (l ks : list (list value)) (k : list value) :
  k ∈ l -> k ∈ foldl put_key ks l.
Proof.
  revert ks. induction l as [|k' l IH]; intros ks; [by inversion 1|].
  simpl. intros [->|Hk]%elem_of_cons.
  - apply foldl_put_key_mono, put_key_in.
  - by apply IH.
Qed.


(** Putting keys that are all there changes nothing. *)
Lemma foldl_put_key_fixed (l ks : list (list value)) :
  (forall k, k ∈ l -> k ∈ ks) -> foldl put_key ks l = ks.
Proof.
  induction l as [|k l IH]; intros Hall; [done|].
  simpl. unfold put_key at 2. rewrite bool_decide_eq_true_2.
  - apply IH. intros k' Hk'. apply Hall. by right.
  - apply Hall. by left.
Qed.



(** ** The outcome of a load *)

Lemma on_failure_facts (table_name : string) (start : nat) (e : exn) (w1 : world) :
  let w' := (on_failure table_name start e w1).1 in
  let entry := Db.LogEntry table_name start (clock w1) 0 Db.FAILURE (Some e) in
  Db.tables (Db.committed (conn w')) = Db.tables (Db.committed (conn w1))
  /\ Db.tables (Db.pending (conn w')) = Db.tables (Db.committed (conn w1))
  /\ bad_rows_log w' = bad_rows_log w1
  /\ reported (conn w') = Some entry.
Proof.
  simpl. rewrite on_failure_run, log_event_run. simpl.
  destruct (Db.etl_log (Db.committed (conn w1))) as [l|]; simpl.
  - repeat split; try done.
    eapply (reported_snoc_log (Db.calls (conn w1) ++ [Db.Rollback]) _ [Db.Commit]);
      [|done]. simpl. by rewrite <- app_assoc.
  - repeat split; try done.
    eapply (reported_snoc_log (Db.calls (conn w1) ++ [Db.Rollback]) _ []); [|done].
    simpl. by rewrite <- app_assoc.
Qed.

Lemma on_success_pending (table_name : string) (start : nat) (df : DataFrame) (w1 : world) :
  Db.tables (Db.pending (conn (on_success table_name start df w1).1))
  = Db.tables (Db.pending (conn w1)).
Proof.
  rewrite on_success_run, log_event_run. simpl.
  by destruct (Db.etl_log (Db.pending (conn w1))).
Qed.

Section Outcome.

Variable pd_read_csv : string -> string -> result DataFrame.
Variable pd_to_datetime : list pyobj -> result (list (option timestamp)).

Lemma prepare_result (table_name csv_path : string) (w : world) :
  (prepare pd_read_csv pd_to_datetime table_name csv_path w).2
  = prepared_frame pd_read_csv pd_to_datetime table_name csv_path.
Proof.
  unfold prepare, prepared_frame, bind, lift, ret.
  destruct (read_csv_safe _ _) as [df0|e]; [|done].
  case_decide.
  - destruct (exchange_rate_rule _ _) as [df|e]; [|done].
    case_decide; [|done]. by rewrite currency_rule_run.
  - case_decide; [|done]. by rewrite currency_rule_run.
Qed.

(** The stages of a table without the full replace: the prepared frame,
    its coercion, and the loader. *)
Lemma stages_other (table_name csv_path : string) (w : world) :
  table_name <> "ds.ft_posting_f" ->
  let wp := (prepare pd_read_csv pd_to_datetime table_name csv_path w).1 in
  stages pd_read_csv pd_to_datetime table_name csv_path w
  = match prepared_frame pd_read_csv pd_to_datetime table_name csv_path with
    | Raise e => (wp, Raise e)
    | Ok df =>
        match batch df with
        | Raise e => (wp, Raise e)
        | Ok values =>
            ((load_values table_name (build_query table_name (columns df)) values wp).1,
             Ok df)
        end
    end.
Proof.
  intros Htable wp. subst wp. rewrite <- (prepare_result table_name csv_path w).
  unfold stages. unfold bind at 1.
  destruct (prepare _ _ _ _ _) as [wp [df|e]]; [|done]. simpl.
  unfold bind at 1. unfold insert. unfold bind at 1.
  case_decide; [done|]. unfold ret at 1. unfold bind at 1. unfold lift, batch.
  destruct (map_result _ _) as [values|e]; [|done].
  destruct (load_values_data_steps table_name
              (build_query table_name (columns df)) values wp) as [_ Hok].
  destruct (load_values _ _ _ _) as [w2 r]. simpl in *. by subst r.
Qed.

End Outcome.

Lemma fallback_store_missing (q : Db.query) (values : list (list value)) (st : Db.store) :
  Db.tables st !! Db.q_table q = None ->
  fallback_store q values st = st.
Proof.
  intros Ht. induction values as [|vals values IH]; [done|].
  unfold fallback_store in *. simpl.
  replace (store_after (Db.InsertRow q vals) st) with st; [done|].
  unfold store_after, Db.run, Db.on_table. by rewrite Ht.
Qed.

Lemma load_values_missing (table_name : string) (q : Db.query)
    (values : list (list value)) (w : world) :
  Db.tables (Db.pending (conn w)) !! Db.q_table q = None ->
  Db.pending (conn (load_values table_name q values w).1) = Db.pending (conn w).
Proof.
  intros Ht. rewrite load_values_run. destruct values as [|vals values]; [done|].
  generalize (vals :: values). intros vs.
  unfold Db.run at 1. unfold Db.on_table. rewrite Ht. simpl.
  by apply fallback_store_missing.
Qed.

Lemma primary_key_not_posting (table_name : string) (pk : list string) :
  primary_key table_name = Some pk -> table_name <> "ds.ft_posting_f".
Proof. by intros Hpk ->. Qed.

Lemma build_query_upsert (table_name : string) (pk cols : list string) :
  primary_key table_name = Some pk ->
  build_query table_name cols
  = Db.Query table_name cols (Some (pk, filter (fun col => col ∉ pk) cols)).
Proof. intros Hpk. unfold build_query. by rewrite Hpk. Qed.

Section Tables.

Variable pd_read_csv : string -> string -> result DataFrame.
Variable pd_to_datetime : list pyobj -> result (list (option timestamp)).

Abbreviation frame_of := (prepared_frame pd_read_csv pd_to_datetime).
Abbreviation loaded := (after_load pd_read_csv pd_to_datetime).

(** The tables after the load of a table without the full replace. *)
Lemma load_tables_other (table_name csv_path : string) (w : world) :
  table_name <> "ds.ft_posting_f" ->
  let w' := loaded table_name csv_path w in
  match frame_of table_name csv_path with
  | Ok df =>
      match batch df with
      | Ok values =>
          exists wp,
            conn wp = conn w
            /\ Db.tables (Db.committed (conn w'))
               = Db.tables (Db.pending (conn (load_values table_name
                    (build_query table_name (columns df)) values wp).1))
            /\ Db.tables (Db.pending (conn w')) = Db.tables (Db.committed (conn w'))
      | Raise _ =>
          Db.tables (Db.committed (conn w')) = Db.tables (Db.committed (conn w))
          /\ Db.tables (Db.pending (conn w')) = Db.tables (Db.committed (conn w))
      end
  | Raise _ =>
      Db.tables (Db.committed (conn w')) = Db.tables (Db.committed (conn w))
      /\ Db.tables (Db.pending (conn w')) = Db.tables (Db.committed (conn w))
  end.
Proof.
  intros Htable w'. subst w'. rewrite load_table_stages, stages_other by done.
  destruct (prepare_world pd_read_csv pd_to_datetime table_name csv_path
              (started table_name w)) as (entries & outs & Hwp).
  set (wp := (prepare pd_read_csv pd_to_datetime table_name csv_path
                (started table_name w)).1) in *.
  assert (Hconn : conn wp = conn w) by by rewrite Hwp.
  assert (Hfail : forall e,
    Db.tables (Db.committed (conn (on_failure table_name (clock w) e wp).1))
    = Db.tables (Db.committed (conn w))
    /\ Db.tables (Db.pending (conn (on_failure table_name (clock w) e wp).1))
       = Db.tables (Db.committed (conn w))).
  { intros e. destruct (on_failure_facts table_name (clock w) e wp) as (H1 & H2 & _).
    simpl in H1, H2. by rewrite H1, H2, Hconn. }
  destruct (frame_of table_name csv_path) as [df|e]; [|by apply Hfail].
  destruct (batch df) as [values|e]; [|by apply Hfail].
  exists wp. split; [done|].
  destruct (on_success_facts table_name (clock w) df
              (load_values table_name (build_query table_name (columns df)) values wp).1)
    as (H1 & _).
  simpl in H1. rewrite H1. split; [done|]. by rewrite on_success_pending.
Qed.

(** C9. For a table with a declared key, loading the same file a second
    time leaves the number of rows of the table as the first load left it:
    the statement of the table has a conflict clause on the key that sets the
    columns outside the key, and a row whose key is in the table is merged
    into that row. *)
Theorem upsert_load_idempotent (table_name csv_path : string) (pk : list string)
    (w : world) :
  primary_key table_name = Some pk ->
  let w1 := loaded table_name csv_path w in
  let w2 := loaded table_name csv_path w1 in
  length (Db.rows_of table_name (Db.committed (conn w2)))
  = length (Db.rows_of table_name (Db.committed (conn w1)))
  /\ (forall cols,
        Db.q_conflict (build_query table_name cols)
        = Some (pk, filter (fun col => col ∉ pk) cols))
  /\ (forall cols new rs,
        Db.key pk new ∈ Db.key pk <$> rs ->
        length (Db.put_row (build_query table_name cols) new rs) = length rs).
Proof.
  intros Hpk w1 w2. split; [|split].
  - pose proof (primary_key_not_posting _ _ Hpk) as Htable.
    pose proof (load_tables_other table_name csv_path w Htable) as H1.
    pose proof (load_tables_other table_name csv_path w1 Htable) as H2.
    fold w1 in H1. fold w2 in H2. unfold Db.rows_of.
    destruct (frame_of table_name csv_path) as [df|e];
      [|destruct H2 as [-> _]; done].
    destruct (batch df) as [values|e]; [|destruct H2 as [-> _]; done].
    destruct H1 as (wp1 & Hconn1 & Hc1 & Hp1).
    destruct H2 as (wp2 & Hconn2 & Hc2 & _).
    rewrite Hc2, Hc1.
    set (q := build_query table_name (columns df)) in *.
    assert (Hq : q = Db.Query table_name (columns df)
                       (Some (pk, filter (fun col => col ∉ pk) (columns df)))).
    { by apply build_query_upsert. }
    assert (Hqt : Db.q_table q = table_name) by by rewrite Hq.
    pose proof (load_values_table table_name q values) as Ltab.
    pose proof (load_values_missing table_name q values) as Lmiss.
    rewrite Hqt in Ltab, Lmiss.
    destruct (Db.tables (Db.pending (conn wp1)) !! table_name) as [t0|] eqn:Ht0.
    + rewrite (Ltab wp1 t0 Ht0).
      assert (Ht1 : Db.tables (Db.pending (conn wp2)) !! table_name
                    = Some (Db.Table (Db.t_accepts t0)
                                     (apply_rows q t0 values (Db.t_rows t0)))).
      { rewrite Hconn2, Hp1, Hc1. by rewrite (Ltab wp1 t0 Ht0). }
      rewrite (Ltab wp2 _ Ht1). simpl.
      set (rs1 := apply_rows q t0 values (Db.t_rows t0)).
      set (set := filter (fun col => col ∉ pk) (columns df)).
      assert (Hconf : Db.q_conflict q = Some (pk, set)) by by rewrite Hq.
      rewrite <- (length_fmap (Db.key pk)), <- (length_fmap (Db.key pk) rs1).
      f_equal. rewrite (keys_apply_rows q pk set) by done.
      apply foldl_put_key_fixed. intros k Hk. unfold rs1.
      rewrite (keys_apply_rows q pk set) by done.
      by apply foldl_put_key_in.
    + rewrite (Lmiss wp1 Ht0), Ht0.
      assert (Ht1 : Db.tables (Db.pending (conn wp2)) !! table_name = None).
      { rewrite Hconn2, Hp1, Hc1. by rewrite (Lmiss wp1 Ht0). }
      by rewrite (Lmiss wp2 Ht1), Ht1.
  - intros cols. by rewrite (build_query_upsert table_name pk cols).
  - intros cols new rs Hin. rewrite (build_query_upsert table_name pk cols) by done.
    unfold Db.put_row. simpl. rewrite has_key_elem_of.
    rewrite bool_decide_eq_true_2 by done. by rewrite length_fmap.
Qed.

End Tables.

Lemma upsert_load_idempotent_witness :
  let w1 := after_load Example.account_file Example.to_datetime "ds.md_account_d"
                       "data/md_account_d.csv" (Example.world_of Example.empty_store) in
  let w2 := after_load Example.account_file Example.to_datetime "ds.md_account_d"
                       "data/md_account_d.csv" w1 in
  length (Db.rows_of "ds.md_account_d" (Db.committed (conn w1))) = 2
  /\ length (Db.rows_of "ds.md_account_d" (Db.committed (conn w2)))
     = length (Db.rows_of "ds.md_account_d" (Db.committed (conn w1))).
Proof.
  intros w1 w2.
  destruct (upsert_load_idempotent Example.account_file Example.to_datetime
              "ds.md_account_d" "data/md_account_d.csv"
              ["data_actual_date"; "account_rk"]
              (Example.world_of Example.empty_store) eq_refl) as [Hsame _].
  split; [|exact Hsame]. vm_compute. reflexivity.
Defined.

(** ** The full replace *)

Lemma map_result_length {A B} (f : A -> result B) (l : list A) (l' : list B) :
  map_result f l = Ok l' -> length l' = length l.
Proof.
  revert l'. induction l as [|x l IH]; intros l'; simpl; [by intros [= <-]|].
  destruct (f x) as [y|e]; [|done].
  destruct (map_result f l) as [ys|e]; [|done].
  intros [= <-]. simpl. f_equal. by apply IH.
Qed.

Lemma batch_length (df : DataFrame) (values : list (list value)) :
  batch df = Ok values -> length values = length (rows df).
Proof.
  intros Hvalues%map_result_length. unfold to_numpy in Hvalues.
  by rewrite length_fmap in Hvalues.
Qed.

(** A table that takes every tuple of a plain insert has them all appended. *)
Lemma apply_rows_plain (q : Db.query) (t : Db.table) (values : list (list value))
    (rs : list (gmap string value)) :
  Db.q_conflict q = None ->
  (forall vals, vals ∈ values -> accepted q t vals = true) ->
  apply_rows q t values rs = rs ++ (Db.incoming q <$> values).
Proof.
  intros Hq. revert rs. unfold apply_rows.
  induction values as [|vals values IH]; intros rs Hall; simpl.
  - by rewrite app_nil_r.
  - rewrite IH by (intros v Hv; apply Hall; by right).
    unfold apply_row. rewrite Hall by by left.
    unfold Db.put_row. rewrite Hq. by rewrite <- app_assoc.
Qed.

Lemma insert_rows_accepted (q : Db.query) (values : list (list value)) (t : Db.table) :
  (forall vals, vals ∈ values -> accepted q t vals = true) ->
  exists t', Db.insert_rows q values t = inr t'.
Proof.
  revert t. induction values as [|vals values IH]; intros t Hall; simpl; [by eexists|].
  pose proof (insert_row_apply q t vals) as Hrow.
  destruct (Db.insert_row q vals t) as [e|t'].
  - destruct Hrow as [_ Hrow]. rewrite Hall in Hrow; [done|by left].
  - destruct Hrow as [-> _]. apply IH. intros v Hv.
    rewrite accepted_rows. apply Hall. by right.
Qed.

Lemma run_delete (name : string) (st : Db.store) (t : Db.table) :
  Db.tables st !! name = Some t ->
  Db.run (Db.DeleteFrom name) st
  = inr (Db.Store (<[name := Db.Table (Db.t_accepts t) []]> (Db.tables st)) (Db.etl_log st)).
Proof. intros Ht. unfold Db.run, Db.on_table. by rewrite Ht. Qed.

Section FullReplace.

Variable pd_read_csv : string -> string -> result DataFrame.
Variable pd_to_datetime : list pyobj -> result (list (option timestamp)).

(** The stages of the full-replace table when the table is there: the
    frame, the delete, the coercion, and the loader. *)
Lemma stages_posting (csv_path : string) (w : world) (t0 : Db.table) :
  Db.tables (Db.pending (conn w)) !! "ds.ft_posting_f" = Some t0 ->
  let wp := (prepare pd_read_csv pd_to_datetime "ds.ft_posting_f" csv_path w).1 in
  let wd := (cur_execute (Db.DeleteFrom "ds.ft_posting_f") wp).1 in
  stages pd_read_csv pd_to_datetime "ds.ft_posting_f" csv_path w
  = match prepared_frame pd_read_csv pd_to_datetime "ds.ft_posting_f" csv_path with
    | Raise e => (wp, Raise e)
    | Ok df =>
        match batch df with
        | Raise e => (wd, Raise e)
        | Ok values =>
            ((load_values "ds.ft_posting_f"
                (build_query "ds.ft_posting_f" (columns df)) values wd).1, Ok df)
        end
    end.
Proof.
  intros Ht wp wd. subst wd wp.
  rewrite <- (prepare_result pd_read_csv pd_to_datetime "ds.ft_posting_f" csv_path w).
  destruct (prepare_world pd_read_csv pd_to_datetime "ds.ft_posting_f" csv_path w)
    as (entries & outs & Hwp).
  unfold stages. unfold bind at 1.
  destruct (prepare _ _ _ _ _) as [wp [df|e]]; [|done]. simpl in *.
  unfold bind at 1. unfold insert. unfold bind at 1.
  rewrite decide_True by done. rewrite cur_execute_run.
  rewrite (run_delete _ _ t0) by by rewrite Hwp.
  unfold bind at 1. unfold lift, batch.
  destruct (map_result _ _) as [values|e]; [|done].
  destruct (load_values_data_steps "ds.ft_posting_f"
              (build_query "ds.ft_posting_f" (columns df)) values
              (World (Db.Connection (Db.committed (conn wp))
                        (store_after (Db.DeleteFrom "ds.ft_posting_f")
                           (Db.pending (conn wp)))
                        (Db.calls (conn wp)
                         ++ [Db.Execute (Db.DeleteFrom "ds.ft_posting_f")]))
                     (bad_rows_log wp) (stdout wp) (clock wp))) as [_ Hok].
  destruct (load_values _ _ _ _) as [w2 r]. simpl in *. by subst r.
Qed.

(** C3. A load of the full-replace table deletes the rows of the table and
    inserts the batch before it commits, the delete and the insert being the
    only statements of the transaction; when the table takes every row of
    the batch, it holds after the load exactly the rows of the batch, however
    many rows it held before, so that its row count is that of the new
    file. *)
Theorem full_replace_load (csv_path : string) (w : world) (df0 : DataFrame)
    (t0 : Db.table) (values : list (list value)) :
  let table := "ds.ft_posting_f" in
  let df := normalize pd_to_datetime df0 in
  let q := build_query table (columns df) in
  let w' := after_load pd_read_csv pd_to_datetime table csv_path w in
  read_csv_safe pd_read_csv csv_path = Ok df0 ->
  Db.tables (Db.pending (conn w)) !! table = Some t0 ->
  batch df = Ok values ->
  (forall vals, vals ∈ values -> accepted q t0 vals = true) ->
  Db.rows_of table (Db.committed (conn w')) = Db.incoming q <$> values
  /\ length (Db.rows_of table (Db.committed (conn w'))) = length (rows df)
  /\ exists post,
       Db.calls (conn w')
       = Db.calls (conn w)
         ++ Db.Execute (Db.DeleteFrom table)
            :: match values with
               | [] => []
               | _ => [Db.Execute (Db.InsertValues q values)]
               end
         ++ Db.Commit :: post.
Proof.
  intros table df q w' Hread Ht0 Hvalues Hall. subst w' table.
  assert (Hqt : Db.q_table q = "ds.ft_posting_f") by done.
  assert (Hqc : Db.q_conflict q = None) by done.
  assert (Hframe : prepared_frame pd_read_csv pd_to_datetime "ds.ft_posting_f" csv_path
                   = Ok df).
  { unfold prepared_frame. rewrite Hread. by repeat case_decide. }
  destruct (prepare_world pd_read_csv pd_to_datetime "ds.ft_posting_f" csv_path
              (started "ds.ft_posting_f" w)) as (entries & outs & Hwp).
  rewrite load_table_stages, (stages_posting csv_path _ t0) by done.
  rewrite Hframe, Hvalues. fold q.
  set (wp := (prepare pd_read_csv pd_to_datetime "ds.ft_posting_f" csv_path (started "ds.ft_posting_f" w)).1)
    in *.
  set (wd := (cur_execute (Db.DeleteFrom "ds.ft_posting_f") wp).1).
  assert (Hwd : Db.tables (Db.pending (conn wd)) !! Db.q_table q
                = Some (Db.Table (Db.t_accepts t0) [])
                /\ Db.calls (conn wd)
                   = Db.calls (conn w) ++ [Db.Execute (Db.DeleteFrom "ds.ft_posting_f")]).
  { unfold wd. rewrite cur_execute_run. simpl. unfold store_after.
    rewrite (run_delete _ _ t0) by by rewrite Hwp. simpl.
    rewrite Hwp. simpl. split; [|done]. apply lookup_insert_eq. }
  destruct Hwd as [Hwd Hcalls].
  pose proof (load_values_table "ds.ft_posting_f" q values wd _ Hwd) as Htable.
  simpl in Htable.
  rewrite (apply_rows_plain q _ values []) in Htable by done.
  simpl in Htable.
  set (wl := (load_values "ds.ft_posting_f" q values wd).1) in *.
  destruct (on_success_facts "ds.ft_posting_f" (clock w) df wl) as (Hcommitted & _).
  simpl in Hcommitted.
  assert (Hrows : Db.rows_of "ds.ft_posting_f" (Db.committed
                    (conn (on_success "ds.ft_posting_f" (clock w) df wl).1))
                  = Db.incoming q <$> values).
  { unfold Db.rows_of. by rewrite Hcommitted, Htable. }
  split; [exact Hrows|]. split.
  { rewrite Hrows, length_fmap. by apply batch_length. }
  assert (Hwl : Db.calls (conn wl)
                = Db.calls (conn wd)
                  ++ match values with
                     | [] => []
                     | _ => [Db.Execute (Db.InsertValues q values)]
                     end).
  { unfold wl. rewrite load_values_run. destruct values as [|vals values'].
    { by rewrite app_nil_r. }
    destruct (insert_rows_accepted q (vals :: values')
                (Db.Table (Db.t_accepts t0) [])) as [t' Ht']; [done|].
    unfold Db.run, Db.on_table. rewrite Hwd. unfold Db.insert_values.
    rewrite Ht'. by unfold Db.batch_keys_distinct. }
  rewrite on_success_run, log_event_run. simpl.
  destruct (Db.etl_log (Db.pending (conn wl))); simpl;
    rewrite Hwl, Hcalls; eexists; by rewrite <- !app_assoc.
Qed.

End FullReplace.

Lemma full_replace_load_witness :
  let w' := after_load Example.posting_file Example.to_datetime "ds.ft_posting_f"
                       "data/ft_posting_f.csv" (Example.world_of Example.posting_store) in
  length (Db.rows_of "ds.ft_posting_f" Example.posting_store) = 3
  /\ length (Db.rows_of "ds.ft_posting_f" (Db.committed (conn w'))) = 2.
Proof.
  intros w'. split; [reflexivity|].
  destruct (full_replace_load Example.posting_file Example.to_datetime
              "data/ft_posting_f.csv" (Example.world_of Example.posting_store)
              Example.posting_frame
              (Db.Table (fun _ => true)
                 [ {["oper_date" := VStr "2018-01-09"; "credit_amount" := VStr "1.5"]};
                   {["oper_date" := VStr "2018-01-09"; "credit_amount" := VStr "2.5"]};
                   {["oper_date" := VStr "2018-01-10"; "credit_amount" := VStr "3.5"]} ])
              [[VStr "2018-01-15"; VStr "10.0"]; [VStr "2018-01-15"; VStr "20.5"]])
    as (_ & Hlength & _).
  - reflexivity.
  - reflexivity.
  - reflexivity.
  - intros vals _. reflexivity.
  - unfold w'. rewrite Hlength. reflexivity.
Defined.

(** ** The exchange-rate table *)

Lemma keep_first_fresh (cols subset : list string) (seen : list (list pyobj))
    (rs : list (nat * list pyobj)) (r : nat * list pyobj) :
  r ∈ keep_first cols subset seen rs -> subset_key cols subset r ∉ seen.
Proof.
  revert seen. induction rs as [|r' rs IH]; intros seen; simpl; [by inversion 1|].
  case_bool_decide as Hseen.
  - apply IH.
  - intros [->|Hr%IH]%elem_of_cons; [done|].
    by apply not_elem_of_cons in Hr as [_ Hr].
Qed.

(** After [drop_duplicates] no two rows have the same key. *)
Lemma keep_first_NoDup (cols subset : list string) (seen : list (list pyobj))
    (rs : list (nat * list pyobj)) :
  NoDup (subset_key cols subset <$> keep_first cols subset seen rs).
Proof.
  revert seen. induction rs as [|r rs IH]; intros seen; simpl; [constructor|].
  case_bool_decide as Hseen; [apply IH|].
  simpl. constructor; [|apply IH].
  intros (r' & Hkey & Hr')%list_elem_of_fmap.
  apply keep_first_fresh in Hr'. rewrite <- Hkey in Hr'.
  apply Hr'. by left.
Qed.



Lemma exchange_rate_rule_columns (table_name : string) (df : DataFrame) :
  exchange_rate_rule table_name df
  = if bool_decide ("data_actual_date" ∈ columns df /\ "currency_rk" ∈ columns df)
    then Ok (drop_duplicates exchange_rate_key df)
    else Raise (MissingColumns table_name (columns df)).
Proof.
  unfold exchange_rate_rule, exchange_rate_key. simpl.
  repeat case_bool_decide; simpl; try done; tauto.
Qed.

Section ExchangeRate.

Variable pd_read_csv : string -> string -> result DataFrame.
Variable pd_to_datetime : list pyobj -> result (list (option timestamp)).

Lemma prepare_clock (table_name csv_path : string) (w : world) :
  clock (prepare pd_read_csv pd_to_datetime table_name csv_path w).1 = clock w
  /\ conn (prepare pd_read_csv pd_to_datetime table_name csv_path w).1 = conn w.
Proof.
  destruct (prepare_world pd_read_csv pd_to_datetime table_name csv_path w)
    as (entries & outs & ->). done.
Qed.

(** The entry of a load that got through its stages. *)
Lemma load_reported_success (table_name csv_path : string) (w : world)
    (df : DataFrame) (values : list (list value)) :
  table_name <> "ds.ft_posting_f" ->
  prepared_frame pd_read_csv pd_to_datetime table_name csv_path = Ok df ->
  batch df = Ok values ->
  reported (conn (after_load pd_read_csv pd_to_datetime table_name csv_path w))
  = Some (Db.LogEntry table_name (clock w) (clock w + 7) (length (rows df))
                      Db.SUCCESS None).
Proof.
  intros Htable Hframe Hvalues.
  rewrite load_table_stages, stages_other, Hframe, Hvalues by done.
  set (wp := (prepare pd_read_csv pd_to_datetime table_name csv_path
                (started table_name w)).1).
  set (wl := (load_values table_name (build_query table_name (columns df)) values wp).1).
  destruct (on_success_facts table_name (clock w) df wl) as (_ & _ & Hreported & _).
  cbv zeta in Hreported. rewrite Hreported.
  destruct (load_values_data_steps table_name
              (build_query table_name (columns df)) values wp)
    as [[_ _ Hclock _ _] _].
  fold wl in Hclock.
  destruct (prepare_clock table_name csv_path (started table_name w)) as [Hclock' _].
  fold wp in Hclock'. simpl in Hclock'.
  replace (clock wl + 2) with (clock w + 7); [done|]. rewrite Hclock, Hclock'. lia.
Qed.



End ExchangeRate.


(** ** Rows without a date *)

Lemma length_filter_lt {A} (P : A -> Prop) `{!forall x, Decision (P x)}
    (l : list A) (i : nat) (x : A) :
  l !! i = Some x -> ~ P x -> length (filter P l) < length l.
Proof.
  revert i. induction l as [|y l IH]; intros i; [done|].
  rewrite filter_cons. destruct i as [|i]; simpl.
  - intros [= ->] Hx. rewrite decide_False by done.
    pose proof (length_filter P l). lia.
  - intros Hi Hx. specialize (IH i Hi Hx). case_decide; simpl; lia.
Qed.

Lemma keep_first_length (cols subset : list string) (seen : list (list pyobj))
    (rs : list (nat * list pyobj)) :
  length (keep_first cols subset seen rs) <= length rs.
Proof.
  revert seen. induction rs as [|r rs IH]; intros seen; simpl; [done|].
  case_bool_decide; simpl.
  - specialize (IH seen). lia.
  - specialize (IH (subset_key cols subset r :: seen)). lia.
Qed.

Section Dates.

Variable pd_read_csv : string -> string -> result DataFrame.
Variable pd_to_datetime : list pyobj -> result (list (option timestamp)).

(** The prepared frame holds rows of the normalised frame only. *)
Lemma prepared_frame_rows (table_name csv_path : string) (df0 df' : DataFrame) :
  read_csv_safe pd_read_csv csv_path = Ok df0 ->
  prepared_frame pd_read_csv pd_to_datetime table_name csv_path = Ok df' ->
  (forall l, l ∈ (rows df').*1 -> l ∈ (rows (normalize pd_to_datetime df0)).*1)
  /\ length (rows df') <= length (rows (normalize pd_to_datetime df0)).
Proof.
  intros Hread. unfold prepared_frame. rewrite Hread.
  set (df := normalize pd_to_datetime df0).
  case_decide as Hexchange.
  - rewrite exchange_rate_rule_columns. case_bool_decide; [|done].
    rewrite decide_False by by subst. intros [= <-]. split.
    + intros l (r & -> & Hr)%list_elem_of_fmap.
      apply list_elem_of_fmap. exists r. split; [done|].
      unfold drop_duplicates in Hr. simpl in Hr. by eapply keep_first_subseteq.
    + apply keep_first_length.
  - case_decide as Hcurrency; intros [= <-]; [|done]. split.
    + intros l (r & -> & Hr)%list_elem_of_fmap.
      apply list_elem_of_filter in Hr as [_ Hr].
      rewrite <- (labels_fixed_frame (rows df) df).
      apply list_elem_of_fmap. by exists r.
    + unfold drop. cbn [rows]. etrans; [apply length_filter|].
      by rewrite <- (length_fmap fst), labels_fixed_frame, length_fmap.
Qed.

(** C6. A row with a date column whose value did not parse is dropped by
    the normaliser: it is not in the normalised frame, whose rows all have a
    value in every date column, nor in the frame that is prepared for the
    table, which is the one that is inserted and counted; the count in the
    log entry of the load does not include it. *)
Theorem unparsed_date_rows_dropped
    (table_name csv_path : string) (df0 : DataFrame) (i j : nat)
    (r : nat * list pyobj) (parsed : list (option timestamp)) :
  let df := normalize pd_to_datetime df0 in
  read_csv_safe pd_read_csv csv_path = Ok df0 ->
  NoDup (rows df0).*1 ->
  rows df0 !! i = Some r ->
  j ∈ date_positions (lower_columns df0) ->
  pd_to_datetime (column j df0) = Ok parsed ->
  default None (parsed !! i) = None ->
  (r.1 ∉ (rows df).*1)
  /\ length (rows df) < length (rows df0)
  /\ (forall r' j', r' ∈ rows df -> j' ∈ date_positions df ->
        isnull (cell_at j' r') = false)
  /\ (forall df',
        prepared_frame pd_read_csv pd_to_datetime table_name csv_path = Ok df' ->
        (r.1 ∉ (rows df').*1)
        /\ length (rows df') < length (rows df0)
        /\ forall w values,
             table_name <> "ds.ft_posting_f" ->
             batch df' = Ok values ->
             exists n,
               reported (conn (after_load pd_read_csv pd_to_datetime
                                          table_name csv_path w))
               = Some (Db.LogEntry table_name (clock w) (clock w + 7) n Db.SUCCESS None)
               /\ n < length (rows df0)).
Proof.
  intros df Hread Hnd Hi Hj Hparsed Hnat.
  assert (Hgone : r.1 ∉ (rows df).*1) by by eapply normalize_drops_row.
  assert (Hless : length (rows df) < length (rows df0)).
  { rewrite <- (length_fmap fst (rows df)). unfold df.
    rewrite labels_normalize_filter, length_fmap.
    set (pf := parse_dates pd_to_datetime (lower_columns df0)).
    assert (Hlabels : (rows pf).*1 = (rows df0).*1).
    { unfold pf, parse_dates. by rewrite labels_foldl_parse. }
    rewrite <- (length_fmap fst (rows df0)), <- Hlabels, length_fmap.
    assert (Hlabel : (rows pf).*1 !! i = Some r.1).
    { by rewrite Hlabels, list_lookup_fmap, Hi. }
    rewrite list_lookup_fmap in Hlabel.
    destruct (rows pf !! i) as [r'|] eqn:Hi'; [|done].
    simpl in Hlabel. injection Hlabel as Hlabel.
    apply (length_filter_lt _ _ i r' Hi'). intros Hdates.
    apply Hgone. unfold df. rewrite labels_normalize_filter. fold pf.
    rewrite <- Hlabel. apply list_elem_of_fmap. exists r'. split; [done|].
    apply list_elem_of_filter. split; [done|]. by eapply list_elem_of_lookup_2. }
  split; [done|]. split; [done|]. split.
  { intros r' j' Hr' Hj'. apply (normalize_has_dates pd_to_datetime df0 r' j'); [done|].
    by rewrite <- (date_positions_normalize pd_to_datetime). }
  intros df' Hframe.
  destruct (prepared_frame_rows table_name csv_path df0 df' Hread Hframe)
    as [Hlabels Hlength].
  fold df in Hlabels, Hlength.
  split; [by intros Hin%Hlabels|]. split; [lia|].
  intros w values Htable Hvalues. exists (length (rows df')). split; [|lia].
  by eapply load_reported_success.
Qed.

End Dates.

Lemma unparsed_date_rows_dropped_witness :
  let df := normalize Example.to_datetime Example.balance_frame in
  (1 ∉ (rows df).*1)
  /\ length (rows df) < 3
  /\ reported (conn (after_load Example.balance_file Example.to_datetime
                                "ds.ft_balance_f" "data/ft_balance_f.csv"
                                (Example.world_of Example.empty_store)))
     = Some (Db.LogEntry "ds.ft_balance_f" 0 7 2 Db.SUCCESS None).
Proof.
  intros df.
  destruct (unparsed_date_rows_dropped Example.balance_file Example.to_datetime
              "ds.ft_balance_f" "data/ft_balance_f.csv" Example.balance_frame 1 0
              (1, [PyStr "31.31.2018"; PyInt 11; PyFloat (FNum "6.0")])
              [Some (Example.midnight 2018 1 1); None; Some (Example.midnight 2018 1 15)])
    as (Hgone & Hless & _ & _).
  - reflexivity.
  - by apply (bool_decide_unpack (NoDup [0; 1; 2])).
  - reflexivity.
  - left.
  - reflexivity.
  - reflexivity.
  - split; [exact Hgone|]. split; [exact Hless|]. vm_compute. reflexivity.
Defined.

(** ** The fallback *)








Lemma q_table_build_query (table_name : string) (cols : list string) :
  Db.q_table (build_query table_name cols) = table_name.
Proof. unfold build_query. by destruct (primary_key table_name). Qed.

Section Fallback.

Variable pd_read_csv : string -> string -> result DataFrame.
Variable pd_to_datetime : list pyobj -> result (list (option timestamp)).

(** The stages of a load whose table is there and whose frame can be
    prepared and coerced: the loader runs on the batch. *)
Lemma stages_table (table_name csv_path : string) (w : world) (t0 : Db.table)
    (df : DataFrame) (values : list (list value)) :
  Db.tables (Db.pending (conn w)) !! table_name = Some t0 ->
  prepared_frame pd_read_csv pd_to_datetime table_name csv_path = Ok df ->
  batch df = Ok values ->
  let wp := (prepare pd_read_csv pd_to_datetime table_name csv_path w).1 in
  let wb := before_insert table_name wp in
  stages pd_read_csv pd_to_datetime table_name csv_path w
  = ((load_values table_name (build_query table_name (columns df)) values wb).1, Ok df)
  /\ Db.committed (conn wb) = Db.committed (conn w)
  /\ Db.tables (Db.pending (conn wb)) !! table_name
     = Some (Db.Table (Db.t_accepts t0)
                      (if decide (table_name = "ds.ft_posting_f") then []
                       else Db.t_rows t0))
  /\ Db.calls (conn wb)
     = Db.calls (conn w)
       ++ (if decide (table_name = "ds.ft_posting_f")
           then [Db.Execute (Db.DeleteFrom "ds.ft_posting_f")] else [])
  /\ clock wb = clock w
  /\ stdout wb = stdout wp.
Proof.
  intros Ht0 Hframe Hvalues wp wb.
  destruct (prepare_world pd_read_csv pd_to_datetime table_name csv_path w)
    as (entries & outs & Hwp).
  fold wp in Hwp. subst wb. unfold before_insert.
  destruct (decide (table_name = "ds.ft_posting_f")) as [->|Hother].
  - rewrite (stages_posting pd_read_csv pd_to_datetime csv_path w t0 Ht0).
    rewrite Hframe, Hvalues. fold wp. split; [done|].
    rewrite cur_execute_run. simpl. unfold store_after.
    rewrite (run_delete _ _ t0) by by rewrite Hwp.
    rewrite Hwp. simpl. repeat split; try done. apply lookup_insert_eq.
  - rewrite stages_other by done. rewrite Hframe, Hvalues. fold wp.
    split; [done|]. rewrite Hwp. simpl. rewrite Ht0, app_nil_r.
    repeat split; try done. by destruct t0.
Qed.


End Fallback.



(** ** The definitions at work *)

(** A date column reaches the database as the text of its dates: after
    [parse_dates] its cells are [datetime.date] objects, which no test of
    [convert_value] catches before the last branch. *)
Example convert_value_date :
  convert_value (PyDate (Date 2018 1 15)) = Ok (VStr "2018-01-15")
  /\ convert_value (PdTimestamp (Example.midnight 2018 1 15)) = Ok (VDate (Date 2018 1 15))
  /\ convert_value (PyStr "  RUB ") = Ok (VStr "RUB")
  /\ convert_value (NpInt 7) = Ok (VInt 7)
  /\ convert_value (PyFloat FNaN) = Ok VNone.
Proof. repeat split; reflexivity. Qed.

(** A load that fails: an account file offered to the exchange-rate table
    lacks [currency_rk]; nothing is committed and the entry is FAILURE with
    row count zero and the exception. *)
Example load_with_missing_columns :
  let w' := after_load Example.account_file Example.to_datetime "ds.md_exchange_rate_d"
                       "data/md_exchange_rate_d.csv"
                       (Example.world_of Example.empty_store) in
  Db.rows_of "ds.md_exchange_rate_d" (Db.committed (conn w')) = []
  /\ Db.calls (conn w')
     = [Db.Rollback;
        Db.Execute (Db.InsertLog
          (Db.LogEntry "ds.md_exchange_rate_d" 0 5 0 Db.FAILURE
             (Some (MissingColumns "ds.md_exchange_rate_d"
                      ["data_actual_date"; "account_rk"; "char_type"]))));
        Db.Commit].
Proof. split; vm_compute; reflexivity. Qed.

(** A load that succeeds, with the calls it makes on the connection. *)
Example load_of_two_postings :
  let w' := after_load Example.posting_file Example.to_datetime "ds.ft_posting_f"
                       "data/ft_posting_f.csv" (Example.world_of Example.posting_store) in
  Db.calls (conn w')
  = [Db.Execute (Db.DeleteFrom "ds.ft_posting_f");
     Db.Execute (Db.InsertValues
       (Db.Query "ds.ft_posting_f" ["oper_date"; "credit_amount"] None)
       [[VStr "2018-01-15"; VStr "10.0"]; [VStr "2018-01-15"; VStr "20.5"]]);
     Db.Commit;
     Db.Execute (Db.InsertLog
       (Db.LogEntry "ds.ft_posting_f" 0 7 2 Db.SUCCESS None));
     Db.Commit].
Proof. vm_compute. reflexivity. Qed.

(** The text of the statement of a table with a key. *)
Example query_text_account :
  query_text (build_query "ds.md_account_d"
                          ["data_actual_date"; "account_rk"; "char_type"])
  = "INSERT INTO ds.md_account_d (data_actual_date, account_rk, char_type) VALUES %s ON CONFLICT (data_actual_date, account_rk) DO UPDATE SET char_type=EXCLUDED.char_type".
Proof. vm_compute. reflexivity. Qed.

(** * Further properties of the code *)

(** ** What the reader returns and raises *)

Section ReaderOutcome.

Variable pd_read_csv : string -> string -> result DataFrame.
Variable csv_path : string.

Lemma is_unicode_decode_error_eq (e : exn) :
  is_unicode_decode_error e = true -> e = UnicodeDecodeError.
Proof. by destruct e. Qed.

Lemma read_attempts_ok (encs : list string) (df : DataFrame) :
  (read_attempts pd_read_csv csv_path encs).2 = Ok df ->
  exists pre enc post,
    encs = pre ++ enc :: post
    /\ Forall (fun enc' => pd_read_csv csv_path enc' = Raise UnicodeDecodeError) pre
    /\ pd_read_csv csv_path enc = Ok df.
Proof.
  induction encs as [|enc encs IH]; simpl; [done|].
  destruct (pd_read_csv csv_path enc) as [df'|e] eqn:Hread.
  - simpl. intros [= ->]. by exists [], enc, encs.
  - destruct (is_unicode_decode_error e) eqn:He; simpl; [|done].
    apply is_unicode_decode_error_eq in He as ->.
    intros H. destruct (IH H) as (pre & enc' & post & -> & Hpre & Hok).
    exists (enc :: pre), enc', post. repeat split; [|done]. by constructor.
Qed.

Lemma read_attempts_raise (encs : list string) (e : exn) :
  (read_attempts pd_read_csv csv_path encs).2 = Raise e ->
  (e = NoEncoding
   /\ Forall (fun enc => pd_read_csv csv_path enc = Raise UnicodeDecodeError) encs)
  \/ (exists pre enc post,
        encs = pre ++ enc :: post
        /\ Forall (fun enc' => pd_read_csv csv_path enc' = Raise UnicodeDecodeError) pre
        /\ pd_read_csv csv_path enc = Raise e
        /\ is_unicode_decode_error e = false).
Proof.
  induction encs as [|enc encs IH]; simpl.
  - intros [= <-]. by left.
  - destruct (pd_read_csv csv_path enc) as [df'|e'] eqn:Hread; [done|].
    destruct (is_unicode_decode_error e') eqn:He; simpl.
    + apply is_unicode_decode_error_eq in He as ->.
      intros H. destruct (IH H) as [[-> Hall]|(pre & enc' & post & -> & Hpre & Hr & Hne)].
      * left. split; [done|]. by constructor.
      * right. exists (enc :: pre), enc', post. repeat split; try done. by constructor.
    + intros [= ->]. right. by exists [], enc, encs.
Qed.

Lemma read_attempts_prefix (encs : list string) :
  exists rest,
    encs = (read_attempts pd_read_csv csv_path encs).1 ++ rest
    /\ Forall (fun enc => pd_read_csv csv_path enc = Raise UnicodeDecodeError)
              (removelast (read_attempts pd_read_csv csv_path encs).1).
Proof.
  induction encs as [|enc encs IH]; simpl.
  - by exists [].
  - destruct (pd_read_csv csv_path enc) as [df'|e'] eqn:Hread.
    + by exists encs.
    + destruct (is_unicode_decode_error e') eqn:He; simpl.
      * apply is_unicode_decode_error_eq in He as ->.
        destruct IH as (rest & Heq & Hall). exists rest. split; [by f_equal|].
        destruct ((read_attempts pd_read_csv csv_path encs).1) as [|a l] eqn:Hl.
        -- constructor.
        -- constructor; [done|]. exact Hall.
      * by exists encs.
Qed.

(** X1. What [read_csv_safe] returns was parsed from the file under one of
    the three encodings, and every encoding before that one in the
    priority list raised a decode error: the reader never returns a frame
    of its own making and never prefers a later encoding to an earlier one
    that reads the file. *)
Theorem read_csv_safe_sound (df : DataFrame) :
  read_csv_safe pd_read_csv csv_path = Ok df ->
  exists pre enc post,
    encodings = pre ++ enc :: post
    /\ Forall (fun enc' => pd_read_csv csv_path enc' = Raise UnicodeDecodeError) pre
    /\ pd_read_csv csv_path enc = Ok df.
Proof. apply read_attempts_ok. Qed.

(** X2. An exception that leaves [read_csv_safe] is either the final one,
    raised after all three encodings gave a decode error, or the exception
    of [pd.read_csv] under the first encoding that did not give a decode
    error, and then it is no decode error. *)
Theorem read_csv_safe_raises (e : exn) :
  read_csv_safe pd_read_csv csv_path = Raise e ->
  (e = NoEncoding
   /\ Forall (fun enc => pd_read_csv csv_path enc = Raise UnicodeDecodeError) encodings)
  \/ (exists pre enc post,
        encodings = pre ++ enc :: post
        /\ Forall (fun enc' => pd_read_csv csv_path enc' = Raise UnicodeDecodeError) pre
        /\ pd_read_csv csv_path enc = Raise e
        /\ is_unicode_decode_error e = false).
Proof. apply read_attempts_raise. Qed.

(** X3. The encodings that a call of [read_csv_safe] tries are a non-empty
    beginning of the priority list, so at most three and none skipped, and
    each of them but the last raised a decode error. *)
Theorem read_csv_safe_attempts :
  let tried := (read_attempts pd_read_csv csv_path encodings).1 in
  (exists rest, encodings = tried ++ rest)
  /\ tried <> []
  /\ length tried <= 3
  /\ Forall (fun enc => pd_read_csv csv_path enc = Raise UnicodeDecodeError)
            (removelast tried).
Proof.
  intros tried.
  destruct (read_attempts_prefix encodings) as (rest & Heq & Hall).
  fold tried in Heq, Hall.
  assert (Hne : tried <> []).
  { unfold tried, encodings. simpl.
    destruct (pd_read_csv csv_path "utf-8") as [?|e]; [done|].
    by destruct (is_unicode_decode_error e). }
  repeat split; [by exists rest|done| |done].
  apply (f_equal length) in Heq. rewrite length_app in Heq.
  unfold encodings in Heq. simpl in Heq. lia.
Qed.

End ReaderOutcome.

Lemma read_csv_safe_sound_witness :
  exists pre enc post,
    encodings = pre ++ enc :: post
    /\ Forall (fun enc' => Example.cyrillic_file "data/md_account_d.csv" enc'
                           = Raise UnicodeDecodeError) pre
    /\ Example.cyrillic_file "data/md_account_d.csv" enc = Ok Example.cyrillic_frame.
Proof.
  apply (read_csv_safe_sound Example.cyrillic_file "data/md_account_d.csv"
                             Example.cyrillic_frame).
  reflexivity.
Defined.

Lemma read_csv_safe_raises_witness :
  (NoEncoding = NoEncoding
   /\ Forall (fun enc => Example.binary_file "data/ft_balance_f.csv" enc
                         = Raise UnicodeDecodeError) encodings)
  \/ (exists pre enc post,
        encodings = pre ++ enc :: post
        /\ Forall (fun enc' => Example.binary_file "data/ft_balance_f.csv" enc'
                               = Raise UnicodeDecodeError) pre
        /\ Example.binary_file "data/ft_balance_f.csv" enc = Raise NoEncoding
        /\ is_unicode_decode_error NoEncoding = false).
Proof.
  apply (read_csv_safe_raises Example.binary_file "data/ft_balance_f.csv" NoEncoding).
  reflexivity.
Defined.

(** ** Stripped text *)

Lemma string_app_nil_r (s : string) : s +:+ "" = s.
Proof. induction s as [|a s IH]; simpl; [done|]. unfold String.app in *. simpl. by rewrite IH. Qed.









Lemma lstrip_length (s : string) : String.length (Str.lstrip s) <= String.length s.
Proof.
  induction s as [|a s IH]; simpl; [lia|].
  destruct (Str.isspace a); simpl; lia.
Qed.













(** ** The log table *)


(** ** What a load keeps *)

Lemma omap_log_of_data_calls (cs : list Db.call) :
  forallb data_call cs = true -> omap log_of_call cs = [].
Proof.
  induction cs as [|c cs IH]; [done|]. simpl.
  intros [Hc Hcs]%andb_prop.
  destruct c as [[]| |]; try done; simpl; by apply IH.
Qed.

Lemma on_table_lookup_ne (name other : string) (f : Db.table -> db_error + Db.table)
    (st st' : Db.store) :
  Db.on_table name f st = inr st' -> other <> name ->
  Db.tables st' !! other = Db.tables st !! other.
Proof.
  unfold Db.on_table. destruct (Db.tables st !! name) as [t|]; [|done].
  destruct (f t) as [e|t']; [done|]. intros [= <-] Hne. simpl.
  by rewrite lookup_insert_ne.
Qed.

Lemma store_after_lookup_ne (s : Db.statement) (st : Db.store) (name other : string) :
  match s with
  | Db.DeleteFrom t => t = name
  | Db.InsertValues q _ | Db.InsertRow q _ => Db.q_table q = name
  | Db.InsertLog _ => True
  end ->
  other <> name ->
  Db.tables (store_after s st) !! other = Db.tables st !! other.
Proof.
  intros Hs Hne. unfold store_after.
  destruct (Db.run s st) as [e|st'] eqn:Hrun; [done|].
  unfold Db.run in Hrun. destruct s; subst.
  - by eapply on_table_lookup_ne.
  - by eapply on_table_lookup_ne.
  - by eapply on_table_lookup_ne.
  - destruct (Db.etl_log st); by simplify_eq.
Qed.

Lemma fallback_store_lookup_ne (q : Db.query) (values : list (list value))
    (st : Db.store) (other : string) :
  other <> Db.q_table q ->
  Db.tables (fallback_store q values st) !! other = Db.tables st !! other.
Proof.
  intros Hne. revert st. unfold fallback_store.
  induction values as [|row values IH]; intros st; [done|].
  cbn [foldl]. rewrite IH.
  by apply (store_after_lookup_ne (Db.InsertRow q row) st (Db.q_table q)).
Qed.

Lemma load_values_lookup_ne (table_name : string) (q : Db.query)
    (values : list (list value)) (w : world) (other : string) :
  other <> Db.q_table q ->
  Db.tables (Db.pending (conn (load_values table_name q values w).1)) !! other
  = Db.tables (Db.pending (conn w)) !! other.
Proof.
  intros Hne. rewrite load_values_run. destruct values as [|row values]; [done|].
  generalize (row :: values). intros vs.
  destruct (Db.run (Db.InsertValues q vs) (Db.pending (conn w))) as [e|st'] eqn:Hrun.
  - simpl. by apply fallback_store_lookup_ne.
  - simpl. pose proof (store_after_lookup_ne (Db.InsertValues q vs) (Db.pending (conn w))
                         (Db.q_table q) other eq_refl Hne) as H.
    unfold store_after in H. by rewrite Hrun in H.
Qed.

Lemma insert_lookup_ne (table_name : string) (df : DataFrame) (w : world)
    (other : string) :
  other <> table_name ->
  Db.tables (Db.pending (conn (insert table_name df w).1)) !! other
  = Db.tables (Db.pending (conn w)) !! other.
Proof.
  intros Hne. unfold insert.
  assert (Hdel : forall w0 r,
             (if decide (table_name = "ds.ft_posting_f")
              then cur_execute (Db.DeleteFrom "ds.ft_posting_f")
              else ret tt) w = (w0, r) ->
             Db.tables (Db.pending (conn w0)) !! other
             = Db.tables (Db.pending (conn w)) !! other).
  { intros w0 r. case_decide as Ht.
    - rewrite cur_execute_run. intros [= <- _]. simpl.
      apply (store_after_lookup_ne _ _ "ds.ft_posting_f"); [done|congruence].
    - by intros [= <- _]. }
  unfold bind at 1.
  destruct ((if decide (table_name = "ds.ft_posting_f")
             then cur_execute (Db.DeleteFrom "ds.ft_posting_f")
             else ret tt) w) as [w0 [[]|e]] eqn:Hd.
  - unfold bind, lift.
    destruct (map_result (map_result convert_value) (to_numpy df)) as [values|e].
    + rewrite load_values_lookup_ne by by rewrite q_table_build_query.
      by eapply Hdel.
    + simpl. by eapply Hdel.
  - simpl. by eapply Hdel.
Qed.

Section LoadInvariants.

Variable pd_read_csv : string -> string -> result DataFrame.
Variable pd_to_datetime : list pyobj -> result (list (option timestamp)).

Lemma stages_lookup_ne (table_name csv_path : string) (w : world) (other : string) :
  other <> table_name ->
  Db.tables (Db.pending (conn (stages pd_read_csv pd_to_datetime
                                      table_name csv_path w).1)) !! other
  = Db.tables (Db.pending (conn w)) !! other.
Proof.
  intros Hne. unfold stages. unfold bind at 1.
  pose proof (prepare_clock pd_read_csv pd_to_datetime table_name csv_path w) as [_ Hc].
  destruct (prepare pd_read_csv pd_to_datetime table_name csv_path w) as [w1 [df|e]];
    simpl in Hc; [|simpl; by rewrite Hc].
  unfold bind, ret.
  pose proof (insert_lookup_ne table_name df w1 other Hne) as Hi.
  destruct (insert table_name df w1) as [w2 [[]|e]]; simpl in *; by rewrite Hi, Hc.
Qed.

Lemma load_table_run (table_name csv_path : string) (w : world) :
  load_table pd_read_csv pd_to_datetime table_name csv_path w
  = (after_load pd_read_csv pd_to_datetime table_name csv_path w, Ok tt).
Proof.
  assert (Hok : (load_table pd_read_csv pd_to_datetime table_name csv_path w).2 = Ok tt).
  { unfold load_table, try_except, bind, now, print, sleep, ret, conn_commit,
      conn_rollback. simpl.
    destruct (prepare _ _ _ _ _) as [w1 [df|e]].
    - destruct (insert _ _ _) as [w2 [[]|e]].
      + match goal with
        | |- context [log_event ?t ?s ?e ?n ?st ?m ?w0] =>
            pose proof (log_event_ok t s e n st m w0) as Hok;
            destruct (log_event t s e n st m w0) as [w3 [[]|e']]
        end; [done|by simpl in Hok].
      + match goal with
        | |- context [log_event ?t ?s ?e ?n ?st ?m ?w0] =>
            pose proof (log_event_ok t s e n st m w0) as Hok;
            destruct (log_event t s e n st m w0) as [w3 [[]|e']]
        end; [done|by simpl in Hok].
    - match goal with
      | |- context [log_event ?t ?s ?e ?n ?st ?m ?w0] =>
          pose proof (log_event_ok t s e n st m w0) as Hok;
          destruct (log_event t s e n st m w0) as [w3 [[]|e']]
      end; [done|by simpl in Hok]. }
  unfold after_load.
  destruct (load_table pd_read_csv pd_to_datetime table_name csv_path w) as [w' r].
  simpl in Hok. by rewrite Hok.
Qed.




Lemma after_load_trace (table_name csv_path : string) (w : world) :
  let w' := after_load pd_read_csv pd_to_datetime table_name csv_path w in
  exists data finish entry post,
    Db.calls (conn w')
    = Db.calls (conn w) ++ data ++ [finish; Db.Execute (Db.InsertLog entry)] ++ post
    /\ forallb data_call data = true
    /\ (finish = Db.Commit /\ Db.le_status entry = Db.SUCCESS
        \/ finish = Db.Rollback /\ Db.le_status entry = Db.FAILURE
           /\ Db.le_row_count entry = 0)
    /\ (post = [] \/ post = [Db.Commit])
    /\ Db.le_table entry = table_name
    /\ Db.le_start entry = clock w
    /\ omap log_of_call (data ++ [finish; Db.Execute (Db.InsertLog entry)] ++ post)
       = [entry].
Proof.
  intros w'. subst w'. rewrite load_table_stages.
  pose proof (stages_data_steps pd_read_csv pd_to_datetime table_name csv_path
                (started table_name w)) as [_ _ _ _ (data & Hcalls & Hdata)].
  simpl in Hcalls.
  assert (Homap : forall finish entry post,
             data_call finish = false -> log_of_call finish = None ->
             omap log_of_call post = [] ->
             omap log_of_call
                  (data ++ [finish; Db.Execute (Db.InsertLog entry)] ++ post) = [entry]).
  { intros finish entry post _ Hf Hpost.
    rewrite omap_app, (omap_log_of_data_calls data Hdata).
    change (omap log_of_call ([finish; Db.Execute (Db.InsertLog entry)] ++ post))
      with (match log_of_call finish with
            | Some y => y :: entry :: omap log_of_call post
            | None => entry :: omap log_of_call post
            end).
    by rewrite Hf, Hpost. }
  destruct (stages pd_read_csv pd_to_datetime table_name csv_path (started table_name w))
    as [w1 [df|e]]; simpl in Hcalls.
  - rewrite on_success_run, log_event_run. simpl. rewrite Hcalls.
    destruct (Db.etl_log (Db.pending (conn w1))) as [l|]; simpl.
    + eexists data, Db.Commit, _, [Db.Commit].
      split; [by rewrite <- !app_assoc|]. split; [done|].
      split; [by left|]. split; [by right|]. split; [done|]. split; [done|].
      by apply Homap.
    + eexists data, Db.Commit, _, [].
      split; [by rewrite <- !app_assoc|]. split; [done|].
      split; [by left|]. split; [by left|]. split; [done|]. split; [done|].
      by apply Homap.
  - rewrite on_failure_run, log_event_run. simpl. rewrite Hcalls.
    destruct (Db.etl_log (Db.committed (conn w1))) as [l|]; simpl.
    + eexists data, Db.Rollback, _, [Db.Commit].
      split; [by rewrite <- !app_assoc|]. split; [done|].
      split; [by right|]. split; [by right|]. split; [done|]. split; [done|].
      by apply Homap.
    + eexists data, Db.Rollback, _, [].
      split; [by rewrite <- !app_assoc|]. split; [done|].
      split; [by right|]. split; [by left|]. split; [done|]. split; [done|].
      by apply Homap.
Qed.

(** X8. Each load sends exactly one entry to the log table, after its last
    statement on the data, and ends the transaction exactly once before it:
    the calls of a load are statements on the data, then one COMMIT or one
    ROLLBACK, then the one INSERT into the log and, when that succeeds, its
    COMMIT.  The entry names the table and the time the load began. *)
Theorem load_logs_exactly_once (table_name csv_path : string) (w : world) :
  let w' := after_load pd_read_csv pd_to_datetime table_name csv_path w in
  exists data finish entry post,
    Db.calls (conn w')
    = Db.calls (conn w) ++ data ++ [finish; Db.Execute (Db.InsertLog entry)] ++ post
    /\ forallb data_call data = true
    /\ (finish = Db.Commit /\ Db.le_status entry = Db.SUCCESS
        \/ finish = Db.Rollback /\ Db.le_status entry = Db.FAILURE
           /\ Db.le_row_count entry = 0)
    /\ (post = [] \/ post = [Db.Commit])
    /\ Db.le_table entry = table_name
    /\ Db.le_start entry = clock w
    /\ omap log_of_call (data ++ [finish; Db.Execute (Db.InsertLog entry)] ++ post)
       = [entry].
Proof. exact (after_load_trace table_name csv_path w). Qed.

Lemma after_load_lookup_ne (table_name csv_path other : string) (w : world) :
  let w' := after_load pd_read_csv pd_to_datetime table_name csv_path w in
  other <> table_name ->
  Db.pending (conn w) = Db.committed (conn w) ->
  Db.tables (Db.committed (conn w')) !! other = Db.tables (Db.committed (conn w)) !! other.
Proof.
  intros w' Hne Hopen. subst w'. rewrite load_table_stages.
  pose proof (stages_lookup_ne table_name csv_path (started table_name w) other Hne)
    as Hst.
  pose proof (stages_data_steps pd_read_csv pd_to_datetime table_name csv_path
                (started table_name w)) as [Hcm _ _ _ _].
  destruct (stages pd_read_csv pd_to_datetime table_name csv_path (started table_name w))
    as [w1 [df|e]]; simpl in Hst, Hcm.
  - rewrite on_success_run, log_event_run. simpl.
    destruct (Db.etl_log (Db.pending (conn w1))); simpl; by rewrite Hst, Hopen.
  - rewrite on_failure_run, log_event_run. simpl.
    destruct (Db.etl_log (Db.committed (conn w1))); simpl; by rewrite Hcm.
Qed.

(** X9. A load writes to its own table only: started with no transaction
    open, it leaves every other table of the database as it was, whether it
    succeeds or fails. *)
Theorem load_leaves_other_tables (table_name csv_path other : string) (w : world) :
  let w' := after_load pd_read_csv pd_to_datetime table_name csv_path w in
  other <> table_name ->
  Db.pending (conn w) = Db.committed (conn w) ->
  Db.tables (Db.committed (conn w')) !! other = Db.tables (Db.committed (conn w)) !! other.
Proof. exact (after_load_lookup_ne table_name csv_path other w). Qed.

End LoadInvariants.

Lemma load_leaves_other_tables_witness :
  Db.tables (Db.committed (conn (after_load Example.posting_file Example.to_datetime
                                            "ds.md_account_d" "data/md_account_d.csv"
                                            (Example.world_of Example.posting_store))))
    !! "ds.ft_posting_f"
  = Db.tables Example.posting_store !! "ds.ft_posting_f".
Proof.
  apply (load_leaves_other_tables Example.posting_file Example.to_datetime
           "ds.md_account_d" "data/md_account_d.csv" "ds.ft_posting_f"
           (Example.world_of Example.posting_store)).
  - done.
  - reflexivity.
Defined.

(** ** The loader at the edges *)

Lemma on_success_trace (table_name : string) (start : nat) (df : DataFrame) (w1 : world) :
  let w' := (on_success table_name start df w1).1 in
  let entry := Db.LogEntry table_name start (clock w1 + 2) (length (rows df))
                           Db.SUCCESS None in
  (exists post, Db.calls (conn w')
                = Db.calls (conn w1) ++ Db.Commit :: Db.Execute (Db.InsertLog entry) :: post)
  /\ (exists outs, stdout w' = stdout w1 ++ outs).
Proof.
  intros w' entry. subst w'. rewrite on_success_run, log_event_run. fold entry. simpl.
  destruct (Db.etl_log (Db.pending (conn w1))); simpl.
  - split; [exists [Db.Commit]; by rewrite <- app_assoc|]. exists []. by rewrite app_nil_r.
  - split; [exists []; by rewrite <- app_assoc|]. by eexists.
Qed.


Lemma fallback_errors_missing (q : Db.query) (values : list (list value)) (i : nat)
    (st : Db.store) :
  Db.tables st !! Db.q_table q = None ->
  length (fallback_errors q i values st) = length values.
Proof.
  intros Hnone. revert i. induction values as [|row values IH]; intros i; [done|].
  cbn [fallback_errors]. unfold Db.run, Db.on_table. rewrite Hnone.
  cbn [length]. f_equal. apply IH.
Qed.

Section LoaderEdges.

Variable pd_read_csv : string -> string -> result DataFrame.
Variable pd_to_datetime : list pyobj -> result (list (option timestamp)).

(** The table and the log entry after a load whose frame was prepared and
    coerced. *)
Lemma loaded_table (table_name csv_path : string) (w : world)
    (t0 : Db.table) (df : DataFrame) (values : list (list value)) :
  let q := build_query table_name (columns df) in
  let w' := after_load pd_read_csv pd_to_datetime table_name csv_path w in
  let rows0 := if decide (table_name = "ds.ft_posting_f") then [] else Db.t_rows t0 in
  prepared_frame pd_read_csv pd_to_datetime table_name csv_path = Ok df ->
  batch df = Ok values ->
  Db.tables (Db.pending (conn w)) !! table_name = Some t0 ->
  Db.tables (Db.committed (conn w')) !! table_name
  = Some (Db.Table (Db.t_accepts t0) (apply_rows q t0 values rows0))
  /\ reported (conn w')
     = Some (Db.LogEntry table_name (clock w) (clock w + 7) (length values)
                         Db.SUCCESS None).
Proof.
  intros q w' rows0 Hframe Hvalues Ht0. subst w'.
  destruct (stages_table pd_read_csv pd_to_datetime table_name csv_path
              (started table_name w) t0 df values Ht0 Hframe Hvalues)
    as (Hstages & _ & Htable & _ & Hclock & _).
  set (wb := before_insert table_name _) in *. fold q in Hstages. fold rows0 in Htable.
  assert (Hqt : Db.q_table q = table_name) by apply q_table_build_query.
  rewrite load_table_stages, Hstages.
  pose proof (on_success_facts table_name (clock w) df
                (load_values table_name q values wb).1) as (Htabs & _ & Hrep & _).
  split.
  - rewrite Htabs.
    rewrite <- Hqt at 1.
    rewrite (load_values_table table_name q values wb
               (Db.Table (Db.t_accepts t0) rows0)) by by rewrite Hqt.
    done.
  - rewrite Hrep.
    pose proof (load_values_data_steps table_name q values wb) as [[_ _ Hck _ _] _].
    rewrite Hck, Hclock, (batch_length df values Hvalues).
    simpl. do 2 f_equal. lia.
Qed.



(** X12. A load with nothing to insert sends no INSERT: when the prepared
    frame has no row, the calls of the load are the DELETE of the
    full-replace table, if it is that table, the COMMIT and the entry in the
    log, which is SUCCESS with row count zero.  The table keeps its rows,
    and the full-replace table is left empty. *)
Theorem empty_frame_load (table_name csv_path : string) (w : world)
    (t0 : Db.table) (df : DataFrame) :
  let w' := after_load pd_read_csv pd_to_datetime table_name csv_path w in
  let entry := Db.LogEntry table_name (clock w) (clock w + 7) 0 Db.SUCCESS None in
  prepared_frame pd_read_csv pd_to_datetime table_name csv_path = Ok df ->
  rows df = [] ->
  Db.tables (Db.pending (conn w)) !! table_name = Some t0 ->
  (exists post,
     Db.calls (conn w')
     = Db.calls (conn w)
       ++ (if decide (table_name = "ds.ft_posting_f")
           then [Db.Execute (Db.DeleteFrom "ds.ft_posting_f")] else [])
       ++ Db.Commit :: Db.Execute (Db.InsertLog entry) :: post
     /\ (post = [] \/ post = [Db.Commit]))
  /\ Db.rows_of table_name (Db.committed (conn w'))
     = (if decide (table_name = "ds.ft_posting_f") then [] else Db.t_rows t0)
  /\ reported (conn w') = Some entry.
Proof.
  intros w' entry Hframe Hrows Ht0.
  assert (Hvalues : batch df = Ok []).
  { unfold batch, to_numpy. by rewrite Hrows. }
  destruct (loaded_table table_name csv_path w t0 df [] Hframe Hvalues Ht0)
    as [Htab Hrep].
  split; [|split; [|exact Hrep]]; [|unfold Db.rows_of; fold w' in Htab; by rewrite Htab].
  subst w'.
  destruct (stages_table pd_read_csv pd_to_datetime table_name csv_path
              (started table_name w) t0 df [] Ht0 Hframe Hvalues)
    as (Hstages & _ & _ & Hcalls & Hclock & _).
  set (wb := before_insert table_name _) in *.
  rewrite load_table_stages, Hstages.
  change (load_values table_name (build_query table_name (columns df)) [] wb).1 with wb.
  rewrite on_success_run, log_event_run. simpl.
  rewrite Hclock, Hrows, Hcalls. simpl.
  replace (clock w + 5 + 2) with (clock w + 7) by lia. fold entry.
  destruct (Db.etl_log (Db.pending (conn wb))); simpl.
  - exists [Db.Commit]. split; [by rewrite <- !app_assoc|by right].
  - exists []. split; [by rewrite <- !app_assoc|by left].
Qed.

(** X13. A table that is not in the database does not make the load fail:
    for every table but the full-replace one the bulk insert raises, each
    tuple is tried and fails, the loader prints that all of them failed, and
    the load is committed and logged as SUCCESS with the number of rows of
    the file, no row being in the database. *)
Theorem missing_table_logged_as_success (table_name csv_path : string) (w : world)
    (df : DataFrame) (values : list (list value)) :
  let w' := after_load pd_read_csv pd_to_datetime table_name csv_path w in
  table_name <> "ds.ft_posting_f" ->
  Db.tables (Db.pending (conn w)) !! table_name = None ->
  prepared_frame pd_read_csv pd_to_datetime table_name csv_path = Ok df ->
  batch df = Ok values ->
  values <> [] ->
  Db.tables (Db.committed (conn w')) = Db.tables (Db.pending (conn w))
  /\ Db.rows_of table_name (Db.committed (conn w')) = []
  /\ PrintBulkError table_name (DatabaseError (UndefinedTable table_name)) ∈ stdout w'
  /\ PrintFailedRows (length values) ∈ stdout w'
  /\ reported (conn w')
     = Some (Db.LogEntry table_name (clock w) (clock w + 7) (length values)
                         Db.SUCCESS None).
Proof.
  intros w' Hother Hnone Hframe Hvalues Hne. subst w'.
  set (q := build_query table_name (columns df)).
  assert (Hqt : Db.q_table q = table_name) by apply q_table_build_query.
  pose proof (prepare_clock pd_read_csv pd_to_datetime table_name csv_path
                (started table_name w)) as [Hck Hconn].
  rewrite load_table_stages, stages_other by done.
  rewrite Hframe, Hvalues.
  set (wp := (prepare pd_read_csv pd_to_datetime table_name csv_path
                (started table_name w)).1) in *.
  simpl in Hck, Hconn. fold q.
  assert (Hnone' : Db.tables (Db.pending (conn wp)) !! Db.q_table q = None).
  { by rewrite Hqt, Hconn. }
  pose proof (on_success_facts table_name (clock w) df
                (load_values table_name q values wp).1) as (Htabs & _ & Hrep & _).
  destruct (on_success_trace table_name (clock w) df
              (load_values table_name q values wp).1) as [_ [outs Houts]].
  pose proof (load_values_data_steps table_name q values wp) as [[_ _ Hck' _ _] _].
  assert (Htables : Db.tables (Db.committed
                      (conn (on_success table_name (clock w) df
                               (load_values table_name q values wp).1).1))
                    = Db.tables (Db.pending (conn w))).
  { by rewrite Htabs, (load_values_missing table_name q values wp Hnone'), Hconn. }
  split; [exact Htables|]. split.
  { unfold Db.rows_of. by rewrite Htables, Hnone. }
  assert (Hout : stdout (load_values table_name q values wp).1
                 = stdout wp
                   ++ [PrintBulkError table_name (DatabaseError (UndefinedTable table_name));
                       PrintFallback]
                   ++ fallback_errors q 0 values (Db.pending (conn wp))
                   ++ [PrintFailedRows (length values)]).
  { rewrite load_values_run. destruct values as [|row values']; [done|].
    unfold Db.run at 1, Db.on_table. rewrite Hnone'. cbn [fst stdout].
    by rewrite (fallback_errors_missing q (row :: values') 0 _ Hnone'), Hqt. }
  split; [|split].
  - rewrite Houts, Hout. apply elem_of_app. left. apply elem_of_app. right.
    apply elem_of_cons. by left.
  - rewrite Houts, Hout. apply elem_of_app. left. apply elem_of_app. right.
    apply elem_of_cons. right. apply elem_of_cons. right.
    apply elem_of_app. right. apply elem_of_cons. by left.
  - rewrite Hrep, Hck', Hck, (batch_length df values Hvalues).
    simpl. do 2 f_equal. lia.
Qed.

(** X14. For the full-replace table a table that is not in the database
    does make the load fail: the DELETE raises before any row is coerced or
    inserted, the load is rolled back and the entry in the log is FAILURE
    with the error of the database. *)
Theorem missing_posting_table_fails (csv_path : string) (w : world) (df : DataFrame) :
  let table := "ds.ft_posting_f" in
  let w' := after_load pd_read_csv pd_to_datetime table csv_path w in
  Db.tables (Db.pending (conn w)) !! table = None ->
  prepared_frame pd_read_csv pd_to_datetime table csv_path = Ok df ->
  Db.tables (Db.committed (conn w')) = Db.tables (Db.committed (conn w))
  /\ (exists post,
        Db.calls (conn w')
        = Db.calls (conn w) ++ Db.Execute (Db.DeleteFrom table) :: Db.Rollback :: post)
  /\ reported (conn w')
     = Some (Db.LogEntry table (clock w) (clock w + 5) 0 Db.FAILURE
                         (Some (DatabaseError (UndefinedTable table)))).
Proof.
  intros table w' Hnone Hframe. subst w' table.
  pose proof (prepare_clock pd_read_csv pd_to_datetime "ds.ft_posting_f" csv_path
                (started "ds.ft_posting_f" w)) as [Hck Hconn].
  pose proof (prepare_result pd_read_csv pd_to_datetime "ds.ft_posting_f" csv_path
                (started "ds.ft_posting_f" w)) as Hres.
  rewrite Hframe in Hres.
  assert (Hstages : stages pd_read_csv pd_to_datetime "ds.ft_posting_f" csv_path (started "ds.ft_posting_f" w)
                    = ((cur_execute (Db.DeleteFrom "ds.ft_posting_f")
                          (prepare pd_read_csv pd_to_datetime "ds.ft_posting_f" csv_path
                             (started "ds.ft_posting_f" w)).1).1,
                       Raise (DatabaseError (UndefinedTable "ds.ft_posting_f")))).
  { unfold stages. unfold bind at 1.
    destruct (prepare pd_read_csv pd_to_datetime "ds.ft_posting_f" csv_path (started "ds.ft_posting_f" w))
      as [wp [df'|e']]; simpl in Hres, Hconn; [|done].
    cbn [fst]. unfold insert, bind. rewrite decide_True by done.
    rewrite !cur_execute_run. unfold Db.run, Db.on_table.
    rewrite Hconn, Hnone. done. }
  rewrite load_table_stages, Hstages.
  set (wp := (prepare pd_read_csv pd_to_datetime "ds.ft_posting_f" csv_path (started "ds.ft_posting_f" w)).1) in *.
  set (wd := (cur_execute (Db.DeleteFrom "ds.ft_posting_f") wp).1).
  assert (Hwd : Db.committed (conn wd) = Db.committed (conn w)
                /\ Db.calls (conn wd) = Db.calls (conn w) ++ [Db.Execute (Db.DeleteFrom "ds.ft_posting_f")]
                /\ clock wd = clock w + 5).
  { unfold wd. rewrite cur_execute_run. simpl. by rewrite Hconn, Hck. }
  destruct Hwd as (Hcm & Hcalls & Hclock).
  pose proof (on_failure_facts "ds.ft_posting_f" (clock w) (DatabaseError (UndefinedTable "ds.ft_posting_f")) wd)
    as (Htabs & _ & _ & Hrep).
  split; [by rewrite Htabs, Hcm|]. split.
  - rewrite on_failure_run, log_event_run. simpl. rewrite Hcalls.
    destruct (Db.etl_log (Db.committed (conn wd))); simpl;
      eexists; by rewrite <- !app_assoc.
  - by rewrite Hrep, Hclock.
Qed.

End LoaderEdges.



Lemma empty_frame_load_witness :
  let w' := after_load Example.header_file Example.to_datetime "ds.ft_posting_f"
                       "data/ft_posting_f.csv" (Example.world_of Example.posting_store) in
  let entry := Db.LogEntry "ds.ft_posting_f" 0 7 0 Db.SUCCESS None in
  (exists post,
     Db.calls (conn w')
     = [Db.Execute (Db.DeleteFrom "ds.ft_posting_f"); Db.Commit;
        Db.Execute (Db.InsertLog entry)] ++ post
     /\ (post = [] \/ post = [Db.Commit]))
  /\ Db.rows_of "ds.ft_posting_f" (Db.committed (conn w')) = []
  /\ reported (conn w') = Some entry.
Proof.
  destruct (empty_frame_load Example.header_file Example.to_datetime "ds.ft_posting_f"
              "data/ft_posting_f.csv" (Example.world_of Example.posting_store)
              (Db.Table (fun _ => true)
                 [ {["oper_date" := VStr "2018-01-09"; "credit_amount" := VStr "1.5"]};
                   {["oper_date" := VStr "2018-01-09"; "credit_amount" := VStr "2.5"]};
                   {["oper_date" := VStr "2018-01-10"; "credit_amount" := VStr "3.5"]} ])
              (normalize Example.to_datetime Example.header_frame)
              eq_refl eq_refl eq_refl) as (Hcalls & Hrows & Hrep).
  split; [exact Hcalls|]. split; [exact Hrows|exact Hrep].
Defined.

Lemma missing_table_logged_as_success_witness :
  let w' := after_load Example.account_file Example.to_datetime "ds.md_account_d"
                       "data/md_account_d.csv" (Example.world_of Example.bare_store) in
  Db.tables (Db.committed (conn w')) = ∅
  /\ Db.rows_of "ds.md_account_d" (Db.committed (conn w')) = []
  /\ PrintBulkError "ds.md_account_d" (DatabaseError (UndefinedTable "ds.md_account_d"))
     ∈ stdout w'
  /\ PrintFailedRows 2 ∈ stdout w'
  /\ reported (conn w') = Some (Db.LogEntry "ds.md_account_d" 0 7 2 Db.SUCCESS None).
Proof.
  apply (missing_table_logged_as_success Example.account_file Example.to_datetime
           "ds.md_account_d" "data/md_account_d.csv" (Example.world_of Example.bare_store)
           (normalize Example.to_datetime Example.account_frame)
           [[VStr "2018-01-01"; VStr "10"; VStr "A"];
            [VStr "2018-01-15"; VStr "11"; VStr "P"]]).
  - done.
  - reflexivity.
  - reflexivity.
  - reflexivity.
  - done.
Defined.

Lemma missing_posting_table_fails_witness :
  let w' := after_load Example.posting_file Example.to_datetime "ds.ft_posting_f"
                       "data/ft_posting_f.csv" (Example.world_of Example.bare_store) in
  Db.tables (Db.committed (conn w')) = ∅
  /\ (exists post,
        Db.calls (conn w')
        = [] ++ Db.Execute (Db.DeleteFrom "ds.ft_posting_f") :: Db.Rollback :: post)
  /\ reported (conn w')
     = Some (Db.LogEntry "ds.ft_posting_f" 0 5 0 Db.FAILURE
                         (Some (DatabaseError (UndefinedTable "ds.ft_posting_f")))).
Proof.
  apply (missing_posting_table_fails Example.posting_file Example.to_datetime
           "data/ft_posting_f.csv" (Example.world_of Example.bare_store)
           (normalize Example.to_datetime Example.posting_frame)).
  - reflexivity.
  - reflexivity.
Defined.

(** ** The columns that [parse_dates] rewrites *)

Lemma date_positions_from_spec (n j : nat) (cols : list string) :
  j ∈ date_positions_from n cols
  <-> n <= j /\ exists c, cols !! (j - n) = Some c /\ is_date_col c = true.
Proof.
  revert n. induction cols as [|c cols IH]; intros n; simpl.
  - split; [by intros ?%elem_of_nil|]. by intros (_ & c & ? & _).
  - assert (Htail : j ∈ date_positions_from (S n) cols
                    <-> n < j /\ exists c', (c :: cols) !! (j - n) = Some c'
                                            /\ is_date_col c' = true).
    { rewrite IH. split.
      - intros (Hle & c' & Hc' & Hd). split; [lia|]. exists c'. split; [|done].
        replace (j - n) with (S (j - S n)) by lia. done.
      - intros (Hlt & c' & Hc' & Hd). split; [lia|]. exists c'. split; [|done].
        replace (j - n) with (S (j - S n)) in Hc' by lia. done. }
    destruct (is_date_col c) eqn:Hc.
    + rewrite elem_of_cons, Htail. split.
      * intros [->|(Hlt & c' & Hc' & Hd)].
        -- split; [lia|]. exists c. by rewrite Nat.sub_diag.
        -- split; [lia|]. by exists c'.
      * intros (Hle & c' & Hc' & Hd).
        destruct (decide (j = n)) as [->|Hne]; [by left|].
        right. split; [lia|]. by exists c'.
    + rewrite Htail. split.
      * intros (Hlt & c' & Hc' & Hd). split; [lia|]. by exists c'.
      * intros (Hle & c' & Hc' & Hd). split; [|by exists c'].
        destruct (decide (j = n)) as [->|Hne]; [|lia].
        rewrite Nat.sub_diag in Hc'. simpl in Hc'. congruence.
Qed.

Lemma date_positions_spec (df : DataFrame) (j : nat) :
  j ∈ date_positions df
  <-> exists c, columns df !! j = Some c /\ is_date_col c = true.
Proof.
  unfold date_positions. rewrite date_positions_from_spec, Nat.sub_0_r.
  split; [by intros [_ ?]|]. intros H. split; [lia|done].
Qed.

Lemma column_set_column_lookup (j i : nat) (vals : list pyobj) (df : DataFrame)
    (r : nat * list pyobj) :
  rows df !! i = Some r ->
  column j (set_column j vals df) !! i
  = Some (if decide (j < length r.2) then default PyNone (vals !! i) else PyNone).
Proof.
  intros Hr. unfold column, set_column. simpl.
  rewrite list_lookup_fmap, list_lookup_imap, Hr. simpl. f_equal.
  unfold cell_at. simpl. case_decide as Hlt.
  - by rewrite list_lookup_insert_eq.
  - rewrite list_insert_ge by lia. by rewrite lookup_ge_None_2 by lia.
Qed.

Lemma row_length_set_column (j i : nat) (vals : list pyobj) (df : DataFrame)
    (r : nat * list pyobj) :
  rows df !! i = Some r ->
  exists r', rows (set_column j vals df) !! i = Some r' /\ length r'.2 = length r.2.
Proof.
  intros Hr. unfold set_column. simpl. rewrite list_lookup_imap, Hr. simpl.
  eexists. split; [done|]. simpl. by rewrite length_insert.
Qed.

Lemma filter_all {A} (P : A -> Prop) `{!forall x, Decision (P x)} (l : list A) :
  (forall x, x ∈ l -> P x) -> filter P l = l.
Proof.
  induction l as [|x l IH]; intros Hall; [done|].
  rewrite filter_cons, decide_True by (apply Hall, elem_of_cons; by left).
  f_equal. apply IH. intros y Hy. apply Hall, elem_of_cons. by right.
Qed.

Section ParsedColumns.

Variable pd_to_datetime : list pyobj -> result (list (option timestamp)).

Lemma row_length_foldl_parse (js : list nat) (i : nat) (df : DataFrame)
    (r : nat * list pyobj) :
  rows df !! i = Some r ->
  exists r', rows (foldl (parse_date_column pd_to_datetime) df js) !! i = Some r'
             /\ length r'.2 = length r.2.
Proof.
  revert df r. induction js as [|j js IH]; intros df r Hr; simpl; [by exists r|].
  assert (exists r1, rows (parse_date_column pd_to_datetime df j) !! i = Some r1
                     /\ length r1.2 = length r.2) as (r1 & Hr1 & Hlen).
  { unfold parse_date_column. destruct (pd_to_datetime _); [|by exists r].
    by apply row_length_set_column. }
  destruct (IH _ _ Hr1) as (r' & Hr' & Hlen'). exists r'. split; [done|congruence].
Qed.

Lemma column_foldl_parse_ok (js : list nat) (j i : nat) (df : DataFrame)
    (parsed : list (option timestamp)) (r : nat * list pyobj) :
  NoDup js -> j ∈ js ->
  pd_to_datetime (column j df) = Ok parsed ->
  rows df !! i = Some r ->
  column j (foldl (parse_date_column pd_to_datetime) df js) !! i
  = Some (if decide (j < length r.2)
          then default PyNone ((to_date <$> parsed) !! i) else PyNone).
Proof.
  revert df r. induction js as [|j' js IH]; intros df r Hnd Hj Hparsed Hr;
    [by inversion Hj|].
  apply NoDup_cons in Hnd as [Hnotin Hnd]. simpl.
  destruct (decide (j = j')) as [<-|Hne].
  - rewrite column_foldl_parse_notin by done.
    unfold parse_date_column. rewrite Hparsed.
    by apply column_set_column_lookup.
  - assert (exists r1, rows (parse_date_column pd_to_datetime df j') !! i = Some r1
                       /\ length r1.2 = length r.2) as (r1 & Hr1 & Hlen).
    { apply (row_length_foldl_parse [j'] i df r Hr). }
    rewrite (IH _ r1); [by rewrite Hlen|done| | |done].
    + by apply elem_of_cons in Hj as [?|?].
    + by rewrite column_parse_column_ne.
Qed.


Lemma length_rows_parse_dates (df : DataFrame) :
  length (rows (parse_dates pd_to_datetime df)) = length (rows df).
Proof.
  unfold parse_dates.
  rewrite <- (length_fmap fst), labels_foldl_parse. apply length_fmap.
Qed.

(** X15. [parse_dates] rewrites the columns whose name contains date, in
    any case of the letters, and nothing else: the labels of the columns,
    the labels and the number of the rows, and every cell of a column whose
    name does not contain date are as they were. *)
Theorem parse_dates_keeps_other_columns (df : DataFrame) :
  columns (parse_dates pd_to_datetime df) = columns df
  /\ (rows (parse_dates pd_to_datetime df)).*1 = (rows df).*1
  /\ length (rows (parse_dates pd_to_datetime df)) = length (rows df)
  /\ (forall j c, columns df !! j = Some c -> is_date_col c = false ->
        column j (parse_dates pd_to_datetime df) = column j df).
Proof.
  unfold parse_dates. split; [apply columns_foldl_parse|].
  split; [apply labels_foldl_parse|]. split.
  - apply length_rows_parse_dates.
  - intros j c Hc Hd. apply column_foldl_parse_notin.
    rewrite date_positions_spec. intros (c' & Hc' & Hd'). congruence.
Qed.

(** X16. After [parse_dates] a date column that [pd.to_datetime] parsed
    holds calendar dates and [None] only: the cell of a row is the date of
    the time stamp parsed for that row, and [None] where the entry is
    [NaT]; no time stamp, [NaT] or text is left in the column. *)
Theorem parse_dates_gives_dates (df : DataFrame) (j : nat) (c : string)
    (parsed : list (option timestamp)) :
  columns df !! j = Some c ->
  is_date_col c = true ->
  pd_to_datetime (column j df) = Ok parsed ->
  (forall i r, rows df !! i = Some r -> j < length r.2 ->
     column j (parse_dates pd_to_datetime df) !! i
     = Some (match parsed !! i with
             | Some (Some t) => PyDate (ts_date t)
             | _ => PyNone
             end))
  /\ (forall v, v ∈ column j (parse_dates pd_to_datetime df) ->
        v = PyNone \/ exists d, v = PyDate d).
Proof.
  intros Hc Hd Hparsed.
  assert (Hj : j ∈ date_positions df).
  { apply date_positions_spec. by exists c. }
  assert (Hcell : forall i r, rows df !! i = Some r ->
            column j (parse_dates pd_to_datetime df) !! i
            = Some (if decide (j < length r.2)
                    then default PyNone ((to_date <$> parsed) !! i) else PyNone)).
  { intros i r Hr. unfold parse_dates.
    apply column_foldl_parse_ok; [apply date_positions_from_NoDup|done..]. }
  split.
  - intros i r Hr Hlt. rewrite (Hcell i r Hr), decide_True by done.
    rewrite list_lookup_fmap. by destruct (parsed !! i) as [[t|]|].
  - intros v [i Hv]%list_elem_of_lookup.
    assert (exists r, rows df !! i = Some r) as [r Hr].
    { apply lookup_lt_is_Some. apply lookup_lt_Some in Hv.
      unfold column in Hv. rewrite length_fmap in Hv.
      by rewrite <- length_rows_parse_dates. }
    rewrite (Hcell i r Hr) in Hv. injection Hv as <-.
    case_decide; [|by left]. rewrite list_lookup_fmap.
    destruct (parsed !! i) as [[t|]|]; simpl; eauto.
Qed.



(** X19. The normalisation lower-cases the names of the columns, adds and
    reorders no row, and keeps every row all of whose date cells are
    present after parsing; a frame without a date column keeps all its
    rows. *)
Theorem normalize_keeps_dated_rows (df : DataFrame) :
  let parsed := parse_dates pd_to_datetime (lower_columns df) in
  columns (normalize pd_to_datetime df) = Str.lower <$> columns df
  /\ (rows (normalize pd_to_datetime df)).*1 `sublist_of` (rows df).*1
  /\ (forall r, r ∈ rows parsed -> has_dates parsed r = true ->
        r.1 ∈ (rows (normalize pd_to_datetime df)).*1)
  /\ (date_positions (lower_columns df) = [] ->
      (rows (normalize pd_to_datetime df)).*1 = (rows df).*1).
Proof.
  intros parsed. split; [apply columns_normalize|].
  rewrite labels_normalize_filter. fold parsed.
  assert (Hlabels : (rows parsed).*1 = (rows df).*1).
  { unfold parsed, parse_dates. by rewrite labels_foldl_parse. }
  split; [|split].
  - rewrite <- Hlabels. apply fmap_sublist, sublist_filter.
  - intros r Hr Hd. apply list_elem_of_fmap. exists r. split; [done|].
    apply list_elem_of_filter. by rewrite Hd.
  - intros Hnone. rewrite <- Hlabels. f_equal.
    assert (Hpos : date_positions parsed = []).
    { unfold parsed. by rewrite date_positions_parse_dates. }
    apply filter_all. intros r _.
    unfold has_dates. by rewrite Hpos.
Qed.

End ParsedColumns.

Lemma parse_dates_gives_dates_witness :
  (forall i r, rows (lower_columns Example.balance_frame) !! i = Some r -> 0 < length r.2 ->
     column 0 (parse_dates Example.to_datetime (lower_columns Example.balance_frame)) !! i
     = Some (match [Some (Example.midnight 2018 1 1); None;
                    Some (Example.midnight 2018 1 15)] !! i with
             | Some (Some t) => PyDate (ts_date t)
             | _ => PyNone
             end))
  /\ (forall v, v ∈ column 0 (parse_dates Example.to_datetime
                                (lower_columns Example.balance_frame)) ->
        v = PyNone \/ exists d, v = PyDate d).
Proof.
  apply (parse_dates_gives_dates Example.to_datetime (lower_columns Example.balance_frame)
           0 "on_date").
  - reflexivity.
  - reflexivity.
  - reflexivity.
Defined.


(** ** Duplicates *)

Lemma keep_first_sublist (cols subset : list string) (seen : list (list pyobj))
    (rs : list (nat * list pyobj)) :
  keep_first cols subset seen rs `sublist_of` rs.
Proof.
  revert seen. induction rs as [|r rs IH]; intros seen; simpl; [done|].
  case_bool_decide.
  - by apply sublist_cons.
  - by apply sublist_skip.
Qed.

Lemma keep_first_first (cols subset : list string) (seen : list (list pyobj))
    (pre post : list (nat * list pyobj)) (r : nat * list pyobj) :
  subset_key cols subset r ∉ seen ->
  (forall r', r' ∈ pre -> subset_key cols subset r' <> subset_key cols subset r) ->
  r ∈ keep_first cols subset seen (pre ++ r :: post).
Proof.
  revert seen. induction pre as [|p pre IH]; intros seen Hseen Hpre; simpl.
  - rewrite bool_decide_eq_false_2 by done. apply elem_of_cons. by left.
  - assert (Hp : subset_key cols subset p <> subset_key cols subset r).
    { apply Hpre, elem_of_cons. by left. }
    assert (Hpre' : forall r', r' ∈ pre ->
                      subset_key cols subset r' <> subset_key cols subset r).
    { intros r' Hr'. apply Hpre, elem_of_cons. by right. }
    case_bool_decide.
    + by apply IH.
    + apply elem_of_cons. right. apply IH; [|done].
      intros [?|?]%elem_of_cons; congruence.
Qed.

Lemma keep_first_distinct (cols subset : list string) (seen : list (list pyobj))
    (rs : list (nat * list pyobj)) :
  NoDup (subset_key cols subset <$> rs) ->
  (forall r, r ∈ rs -> subset_key cols subset r ∉ seen) ->
  keep_first cols subset seen rs = rs.
Proof.
  revert seen. induction rs as [|r rs IH]; intros seen Hnd Hseen; simpl; [done|].
  rewrite fmap_cons in Hnd. apply NoDup_cons in Hnd as [Hr Hnd].
  rewrite bool_decide_eq_false_2 by (apply Hseen, elem_of_cons; by left).
  f_equal. apply IH; [done|]. intros r' Hr' [Heq|Hin]%elem_of_cons.
  - apply Hr. rewrite <- Heq. apply list_elem_of_fmap. by exists r'.
  - apply (Hseen r'); [|done]. apply elem_of_cons. by right.
Qed.

(** X20. [drop_duplicates] on the key columns keeps the rows in the order of
    the file and drops no first occurrence: a row none of whose
    predecessors has its key stays.  A frame whose keys are distinct is
    returned as it is, and dropping the duplicates a second time changes
    nothing. *)
Theorem drop_duplicates_keeps_first (subset : list string) (df : DataFrame) :
  rows (drop_duplicates subset df) `sublist_of` rows df
  /\ (forall pre r post,
        rows df = pre ++ r :: post ->
        (forall r', r' ∈ pre -> subset_key (columns df) subset r'
                                <> subset_key (columns df) subset r) ->
        r ∈ rows (drop_duplicates subset df))
  /\ (NoDup (subset_key (columns df) subset <$> rows df) ->
      drop_duplicates subset df = df)
  /\ drop_duplicates subset (drop_duplicates subset df) = drop_duplicates subset df.
Proof.
  split; [apply keep_first_sublist|]. split; [|split].
  - intros pre r post Hrows Hpre. unfold drop_duplicates. simpl. rewrite Hrows.
    apply keep_first_first; [apply not_elem_of_nil|done].
  - intros Hnd. unfold drop_duplicates.
    rewrite keep_first_distinct; [by destruct df|done|].
    intros r _. apply not_elem_of_nil.
  - unfold drop_duplicates at 1 3. simpl. f_equal.
    apply keep_first_distinct; [apply keep_first_NoDup|].
    intros r _. apply not_elem_of_nil.
Qed.

(** ** The ISO code of a currency *)










(** ** The audit file *)


Section AuditFile.

Variable pd_read_csv : string -> string -> result DataFrame.
Variable pd_to_datetime : list pyobj -> result (list (option timestamp)).



End AuditFile.

(** ** Frames of key columns *)

Lemma apply_rows_refused (q : Db.query) (t : Db.table) (values : list (list value))
    (rs : list (gmap string value)) :
  (forall vals, vals ∈ values -> accepted q t vals = false) ->
  apply_rows q t values rs = rs.
Proof.
  unfold apply_rows. revert rs. induction values as [|vals values IH]; intros rs H;
    [done|].
  cbn [foldl]. unfold apply_row at 2.
  rewrite (H vals) by (apply elem_of_cons; by left).
  apply IH. intros vals' Hin. apply H, elem_of_cons. by right.
Qed.

Section KeyColumns.

Variable pd_read_csv : string -> string -> result DataFrame.
Variable pd_to_datetime : list pyobj -> result (list (option timestamp)).

(** X23. A file that holds the key columns of its table and no other
    column loads nothing: the statement built for it has an empty SET list
    and is refused for every tuple, the table keeps the rows it had, and the
    load is still logged as SUCCESS with the number of rows of the
    file. *)
Theorem key_only_file_loads_nothing (table_name csv_path : string) (w : world)
    (pk : list string) (t0 : Db.table) (df : DataFrame) (values : list (list value)) :
  let q := build_query table_name (columns df) in
  let w' := after_load pd_read_csv pd_to_datetime table_name csv_path w in
  primary_key table_name = Some pk ->
  (forall c, c ∈ columns df -> c ∈ pk) ->
  prepared_frame pd_read_csv pd_to_datetime table_name csv_path = Ok df ->
  batch df = Ok values ->
  Db.tables (Db.pending (conn w)) !! table_name = Some t0 ->
  Db.q_conflict q = Some (pk, [])
  /\ (forall vals, Db.refusal q t0 (Db.incoming q vals) = Some SyntaxError)
  /\ Db.rows_of table_name (Db.committed (conn w')) = Db.t_rows t0
  /\ reported (conn w')
     = Some (Db.LogEntry table_name (clock w) (clock w + 7) (length values)
                         Db.SUCCESS None).
Proof.
  intros q w' Hpk Hcols Hframe Hvalues Ht0.
  assert (Hq : q = Db.Query table_name (columns df) (Some (pk, []))).
  { unfold q. rewrite (build_query_upsert table_name pk) by done. do 3 f_equal.
    induction (columns df) as [|c cols IH]; [done|].
    rewrite filter_cons, decide_False.
    - apply IH. intros c' Hc'. apply Hcols, elem_of_cons. by right.
    - intros Hc. apply Hc, Hcols, elem_of_cons. by left. }
  assert (Hrefused : forall vals, Db.refusal q t0 (Db.incoming q vals) = Some SyntaxError).
  { intros vals. unfold Db.refusal, Db.well_formed. rewrite Hq. simpl.
    by destruct pk. }
  split; [by rewrite Hq|]. split; [done|].
  destruct (loaded_table pd_read_csv pd_to_datetime table_name csv_path w t0 df values
              Hframe Hvalues Ht0) as [Htab Hrep].
  split; [|exact Hrep]. fold w' in Htab. unfold Db.rows_of. rewrite Htab. simpl.
  fold q. rewrite apply_rows_refused.
  - rewrite decide_False; [done|]. by eapply primary_key_not_posting.
  - intros vals _. unfold accepted. by rewrite Hrefused.
Qed.

End KeyColumns.

Lemma key_only_file_loads_nothing_witness :
  let q := build_query "ds.ft_balance_f" ["on_date"; "account_rk"] in
  let w' := after_load Example.key_file Example.to_datetime "ds.ft_balance_f"
                       "data/ft_balance_f.csv" (Example.world_of Example.empty_store) in
  Db.q_conflict q = Some (["on_date"; "account_rk"], [])
  /\ (forall vals, Db.refusal q Example.free_table (Db.incoming q vals) = Some SyntaxError)
  /\ Db.rows_of "ds.ft_balance_f" (Db.committed (conn w')) = []
  /\ reported (conn w') = Some (Db.LogEntry "ds.ft_balance_f" 0 7 2 Db.SUCCESS None).
Proof.
  apply (key_only_file_loads_nothing Example.key_file Example.to_datetime
           "ds.ft_balance_f" "data/ft_balance_f.csv"
           (Example.world_of Example.empty_store) ["on_date"; "account_rk"]
           Example.free_table (normalize Example.to_datetime Example.key_frame)
           [[VStr "2018-01-01"; VStr "10"]; [VStr "2018-01-15"; VStr "11"]]).
  - reflexivity.
  - intros c Hc. exact Hc.
  - reflexivity.
  - reflexivity.
  - reflexivity.
Defined.

(** ** The six loads of [main] *)

Section Main.

Variable pd_read_csv : string -> string -> result DataFrame.
Variable pd_to_datetime : list pyobj -> result (list (option timestamp)).

Abbreviation load_one :=
  (fun (w : world) (f : string * string) =>
     after_load pd_read_csv pd_to_datetime f.1 f.2 w).

Lemma load_all_run (fs : list (string * string)) (lines : list main_line) (w : world) :
  load_all pd_read_csv pd_to_datetime fs lines w
  = (foldl load_one w fs, lines ++ (PrintLoading <$> fs.*1), Ok tt).
Proof.
  revert lines w. induction fs as [|[table path] fs IH]; intros lines w; simpl.
  - by rewrite app_nil_r.
  - rewrite load_table_run, IH. by rewrite <- app_assoc.
Qed.


Lemma loads_logged (fs : list (string * string)) (w : world) :
  exists cs,
    Db.calls (conn (foldl load_one w fs)) = Db.calls (conn w) ++ cs
    /\ logged_tables cs = fs.*1.
Proof.
  revert w. induction fs as [|[table path] fs IH]; intros w; simpl.
  - exists []. by rewrite app_nil_r.
  - destruct (after_load_trace pd_read_csv pd_to_datetime table path w)
      as (data & finish & entry & post & Hcalls & _ & _ & _ & Htable & _ & Hlog).
    destruct (IH (after_load pd_read_csv pd_to_datetime table path w))
      as (cs & Hcs & Hlogged).
    exists ((data ++ [finish; Db.Execute (Db.InsertLog entry)] ++ post) ++ cs).
    split.
    + by rewrite Hcs, Hcalls, <- !app_assoc.
    + unfold logged_tables in *. rewrite omap_app, Hlog, fmap_app, Hlogged.
      simpl. by rewrite Htable.
Qed.


(** X24. Once the connection is open [main] loads the six tables in the
    order balance, posting, account, currency, exchange rate, ledger
    account, whatever becomes of each load: it announces each table, ends
    with the closing line and the closed connection, and the log table is
    sent one entry per table, in that order.  When the connection cannot be
    opened its exception leaves [main] and nothing is loaded. *)
Theorem main_loads_six_tables (w : world) :
  (forall e, main pd_read_csv pd_to_datetime (Raise e) w = Raise e)
  /\ (forall c,
        let w0 := World c (bad_rows_log w) (stdout w) (clock w) in
        let w' := foldl load_one w0 files in
        main pd_read_csv pd_to_datetime (Ok c) w
        = Ok (Finished w'
                [PrintLoading "ds.ft_balance_f"; PrintLoading "ds.ft_posting_f";
                 PrintLoading "ds.md_account_d"; PrintLoading "ds.md_currency_d";
                 PrintLoading "ds.md_exchange_rate_d";
                 PrintLoading "ds.md_ledger_account_s"; PrintDone]
                true)
        /\ exists cs,
             Db.calls (conn w') = Db.calls c ++ cs
             /\ logged_tables cs
                = ["ds.ft_balance_f"; "ds.ft_posting_f"; "ds.md_account_d";
                   "ds.md_currency_d"; "ds.md_exchange_rate_d";
                   "ds.md_ledger_account_s"]).
Proof.
  split; [done|]. intros c w0 w'. split.
  - unfold main. fold w0. by rewrite load_all_run.
  - apply (loads_logged files w0).
Qed.


End Main.

